(** * Custody schedule engine (src/schedule.ts): a shallow embedding

    The engine is a family of functions from a configuration and a JavaScript
    [Date] to a custodial party.  This development embeds it in three layers.

    - [Module JS]: the part of the ECMAScript [Date] object the engine calls
      ([new Date(y, m, d)], [new Date(isoString)], [getFullYear], [getMonth],
      [getDate], [getDay], [setDate], [getTime]), following the abstract
      operations of ECMA-262 (Day, DayFromYear, YearFromTime, MonthFromTime,
      DateFromTime, WeekDay, MakeDay), together with [Math.round],
      [Math.floor] and the truncating remainder [%].
    - the functions of schedule.ts, under the names they have there, taking the
      loaded configuration as an argument;
    - [Module Store]: the module-level configuration cache with [loadConfig]
      and [reloadConfig], and the exported queries that go through it.

    Scope of the [Date] model.  A [Date] is its time value (milliseconds since
    the epoch, UTC).  The local time zone has a fixed offset [tza] from UTC, so
    daylight-saving jumps are not modelled ([diffDays] rounds precisely to
    absorb them).  Time values are unbounded integers: the clipping of time
    values beyond 8.64e15 ms and the legacy reading of the years 0..99 as
    1900..1999 by the [Date] constructor are outside the model.  Date strings
    of the configuration are well-formed [YYYY-MM-DD] strings, represented by
    their three numeric fields. *)

From Stdlib Require Import ZArith List String Ascii Bool Lia DecimalString.
Import ListNotations.
Local Open Scope Z_scope.

(* ================================================================== *)
(** * The ECMAScript operations used by the engine *)
(* ================================================================== *)

Module JS.

(** ** Numbers *)

(** [a % b] on integers: the remainder has the sign of the dividend. *)
Definition rem (a b : Z) : Z := Z.rem a b.

(** [Math.floor(a / b)] for integers [a] and [b > 0]. *)
Definition floorDiv (a b : Z) : Z := a / b.

(** [Math.round(a / b)] for integers [a] and [b > 0]: the nearest integer,
    halves going up. *)
Definition roundDiv (a b : Z) : Z := (2 * a + b) / (2 * b).

(** ** Day numbers and the proleptic Gregorian calendar *)

Definition msPerDay : Z := 86400000.

Definition Day (t : Z) : Z := t / msPerDay.
Definition TimeWithinDay (t : Z) : Z := t mod msPerDay.

Definition DaysInYear (y : Z) : Z :=
  if negb (y mod 4 =? 0) then 365
  else if negb (y mod 100 =? 0) then 366
  else if negb (y mod 400 =? 0) then 365
  else 366.

Definition DayFromYear (y : Z) : Z :=
  365 * (y - 1970) + (y - 1969) / 4 - (y - 1901) / 100 + (y - 1601) / 400.

(** The largest [y] with [DayFromYear y <= d]: an estimate from the mean year
    length, corrected by at most one year. *)
Definition YearFromDay (d : Z) : Z :=
  let y := 1970 + (400 * d) / 146097 in
  if d <? DayFromYear y then y - 1
  else if DayFromYear (y + 1) <=? d then y + 1
  else y.

Definition InLeapYear (d : Z) : Z := DaysInYear (YearFromDay d) - 365.

Definition DayWithinYear (d : Z) : Z := d - DayFromYear (YearFromDay d).

(** Day within the year on which month [m] (0..11) starts; [leap] is 0 or 1. *)
Definition monthStart (leap m : Z) : Z :=
  match m with
  | 0 => 0
  | 1 => 31
  | 2 => 59 + leap
  | 3 => 90 + leap
  | 4 => 120 + leap
  | 5 => 151 + leap
  | 6 => 181 + leap
  | 7 => 212 + leap
  | 8 => 243 + leap
  | 9 => 273 + leap
  | 10 => 304 + leap
  | 11 => 334 + leap
  | _ => 365 + leap
  end.

(** Month (0..11) of day [w] of a year with [l] leap days (the table of
    MonthFromTime). *)
Definition monthOfYearDay (l w : Z) : Z :=
  if w <? 31 then 0
  else if w <? 59 + l then 1
  else if w <? 90 + l then 2
  else if w <? 120 + l then 3
  else if w <? 151 + l then 4
  else if w <? 181 + l then 5
  else if w <? 212 + l then 6
  else if w <? 243 + l then 7
  else if w <? 273 + l then 8
  else if w <? 304 + l then 9
  else if w <? 334 + l then 10
  else 11.

Definition MonthFromDay (d : Z) : Z :=
  monthOfYearDay (InLeapYear d) (DayWithinYear d).

Definition DateFromDay (d : Z) : Z :=
  DayWithinYear d - monthStart (InLeapYear d) (MonthFromDay d) + 1.

Definition WeekDayOfDay (d : Z) : Z := (d + 4) mod 7.

(** [MakeDay(year, month, date)]: months outside 0..11 carry into the year,
    and [date] counts from the first of that month without any bound. *)
Definition MakeDay (year month date : Z) : Z :=
  let ym := year + month / 12 in
  let mn := month mod 12 in
  DayFromYear ym + monthStart (DaysInYear ym - 365) mn + date - 1.

(** Number of days of month [m] (0..11) in a year with [leap] leap days. *)
Definition monthLength (leap m : Z) : Z :=
  monthStart leap (m + 1) - monthStart leap m.

(** ** Date objects *)

Definition Date : Type := Z.

Section LocalTime.

(** Offset of local time from UTC in milliseconds (local = UTC + tza);
    negative west of Greenwich. *)
Variable tza : Z.

Definition localDay (d : Date) : Z := Day (d + tza).

Definition getTime (d : Date) : Z := d.
Definition getFullYear (d : Date) : Z := YearFromDay (localDay d).
Definition getMonth (d : Date) : Z := MonthFromDay (localDay d).
Definition getDate (d : Date) : Z := DateFromDay (localDay d).
Definition getDay (d : Date) : Z := WeekDayOfDay (localDay d).

(** [new Date(year, month, date)]: local midnight of that calendar day. *)
Definition newDate (year month date : Z) : Date :=
  MakeDay year month date * msPerDay - tza.

(** [d.setDate(n)] (returning the updated object): the day of the month is
    replaced, the local time of day is kept. *)
Definition setDate (d : Date) (n : Z) : Date :=
  MakeDay (getFullYear d) (getMonth d) n * msPerDay
  + TimeWithinDay (d + tza) - tza.

End LocalTime.

(** A well-formed date-only string [YYYY-MM-DD], by its fields. *)
Record IsoDate : Type := mkIso { isoYear : Z; isoMonth : Z; isoDay : Z }.

(** [new Date(iso)] on a date-only ISO string: ECMAScript reads the date-only
    forms as UTC, so the result is midnight UTC of that day, whatever the local
    time zone is. *)
Definition newDateOfString (iso : IsoDate) : Date :=
  MakeDay (isoYear iso) (isoMonth iso - 1) (isoDay iso) * msPerDay.

End JS.


(* ================================================================== *)
(** * Types of schedule.ts *)
(* ================================================================== *)

Inductive Party : Type := user | coparent.

Definition Party_eqb (a b : Party) : bool :=
  match a, b with
  | user, user | coparent, coparent => true
  | _, _ => false
  end.

Record WeekdayOvernight : Type := mkWeekdayOvernight {
  wo_parent : Party;
  wo_pickupDay : string;
  wo_dropoffDay : string
}.

Record AlternatingWeekends : Type := mkAlternatingWeekends {
  aw_referenceDate : JS.IsoDate;
  aw_pickupDay : string;
  aw_pickupTime : string;
  aw_dropoffDay : string;
  aw_dropoffTime : string
}.

Record HolidayRules : Type := mkHolidayRules {
  evenYearUser : list string;
  oddYearUser : list string;
  alwaysUser : list string;
  alwaysCoparent : list string
}.

Record ScheduleConfig : Type := mkScheduleConfig {
  weekdayOvernight : WeekdayOvernight;
  alternatingWeekends : AlternatingWeekends;
  holidays : HolidayRules
}.

Record CustodyTransition : Type := mkTransition {
  ct_date : JS.Date;
  ct_description : string
}.

Record HolidayAssignment : Type := mkAssignment {
  ha_name : string;
  ha_date : JS.Date;
  ha_parent : Party
}.

Inductive EventType : Type := no_school | early_release | milestone.

Definition EventType_eqb (a b : EventType) : bool :=
  match a, b with
  | no_school, no_school | early_release, early_release
  | milestone, milestone => true
  | _, _ => false
  end.

Record SchoolInfo : Type := mkSchoolInfo {
  sc_name : string;
  sc_shortName : string;
  sc_year : string;
  sc_child : string
}.

Record DailySchedule : Type := mkDailySchedule {
  regularStart : string;
  regularEnd : string;
  earlyOutStart : string;
  earlyOutEnd : string;
  earlyOutDays : list string
}.

Record Term : Type := mkTerm {
  term_name : string;
  term_start : JS.IsoDate;
  term_end : JS.IsoDate
}.

Record CalendarEvent : Type := mkEvent {
  ev_date : JS.IsoDate;
  ev_endDate : option JS.IsoDate;
  ev_type : EventType;
  ev_name : string
}.

Record SchoolCalendarConfig : Type := mkSchoolCalendar {
  school : SchoolInfo;
  schedule : DailySchedule;
  terms : list Term;
  events : list CalendarEvent
}.

Inductive SessionType : Type :=
  regular | session_early_release | session_no_school | not_in_session.

Record SchoolDayInfo : Type := mkSchoolDayInfo {
  sd_type : SessionType;
  sd_startTime : option string;
  sd_endTime : option string;
  sd_eventName : option string;
  sd_term : option string;
  sd_child : option string;
  sd_schoolName : option string
}.

(** [process.env] as far as the engine reads it. *)
Record Env : Type := mkEnv {
  USER_NAME : option string;
  COPARENT_NAME : option string
}.

(** ** Exceptions *)

Inductive Error : Type :=
| ConfigNotFound
| InvalidDayName (name : string)
| TypeError.

Inductive result (A : Type) : Type :=
| Ok (a : A)
| Throw (e : Error).

Arguments Ok {A} a.
Arguments Throw {A} e.

Definition bind {A B : Type} (r : result A) (k : A -> result B) : result B :=
  match r with
  | Ok a => k a
  | Throw e => Throw e
  end.

Notation "x <- e ;; k" := (bind e (fun x => k))
  (at level 61, e at next level, right associativity).

(* ================================================================== *)
(** * Day helpers *)
(* ================================================================== *)

Local Open Scope string_scope.
Local Open Scope Z_scope.

Definition DAYS : list string :=
  ["sunday"; "monday"; "tuesday"; "wednesday"; "thursday"; "friday"; "saturday"].

(** [String.prototype.toLowerCase] on ASCII text. *)
Definition lowerAscii (c : ascii) : ascii :=
  let n := nat_of_ascii c in
  if ((65 <=? n) && (n <=? 90))%nat then ascii_of_nat (n + 32) else c.

Fixpoint toLowerCase (s : string) : string :=
  match s with
  | EmptyString => EmptyString
  | String c r => String (lowerAscii c) (toLowerCase r)
  end.

(** [Array.prototype.indexOf], counting from [i]. *)
Fixpoint indexOfFrom (i : Z) (l : list string) (x : string) : Z :=
  match l with
  | [] => -1
  | y :: r => if String.eqb y x then i else indexOfFrom (i + 1) r x
  end.

Definition indexOf (l : list string) (x : string) : Z := indexOfFrom 0 l x.

(** [Array.prototype.includes] on strings. *)
Definition includes (l : list string) (x : string) : bool :=
  existsb (String.eqb x) l.

Definition dayIndex (name : string) : result Z :=
  let idx := indexOf DAYS (toLowerCase name) in
  if idx =? -1 then Throw (InvalidDayName name) else Ok idx.

(** [process.env.X || dflt]: an unset or empty variable gives the default. *)
Definition orDefault (v : option string) (dflt : string) : string :=
  match v with
  | Some s => if String.eqb s "" then dflt else s
  | None => dflt
  end.

Definition decimal (n : Z) : string := NilZero.string_of_int (Z.to_int n).

Definition shortDayName (dow : Z) : string :=
  nth (Z.to_nat dow) ["Sun"; "Mon"; "Tue"; "Wed"; "Thu"; "Fri"; "Sat"] "".

Definition shortMonthName (m : Z) : string :=
  nth (Z.to_nat m)
      ["Jan"; "Feb"; "Mar"; "Apr"; "May"; "Jun";
       "Jul"; "Aug"; "Sep"; "Oct"; "Nov"; "Dec"] "".

Fixpoint join (sep : string) (l : list string) : string :=
  match l with
  | [] => ""
  | [x] => x
  | x :: r => x ++ sep ++ join sep r
  end.

(* ================================================================== *)
(** * The engine *)
(* ================================================================== *)

Section Engine.

Variable tza : Z.
Variable env : Env.

Definition startOfDay (d : JS.Date) : JS.Date :=
  JS.newDate tza (JS.getFullYear tza d) (JS.getMonth tza d) (JS.getDate tza d).

Definition addDays (d : JS.Date) (n : Z) : JS.Date :=
  JS.setDate tza d (JS.getDate tza d + n).

Definition parseLocalDate (iso : JS.IsoDate) : JS.Date :=
  JS.newDate tza (JS.isoYear iso) (JS.isoMonth iso - 1) (JS.isoDay iso).

Definition diffDays (a b : JS.Date) : Z :=
  JS.roundDiv (JS.getTime (startOfDay a) - JS.getTime (startOfDay b)) 86400000.

(** [toLocaleDateString("en-US", {weekday: "short", month: "short",
    day: "numeric"})], for instance [Fri, Jan 5]. *)
Definition formatDate (d : JS.Date) : string :=
  shortDayName (JS.getDay tza d) ++ ", "
  ++ shortMonthName (JS.getMonth tza d) ++ " " ++ decimal (JS.getDate tza d).

(** ** Floating holidays *)

Definition nthWeekday (year month weekday n : Z) : JS.Date :=
  let first := JS.newDate tza year month 1 in
  let dayOfWeek := JS.getDay tza first in
  let date := 1 + JS.rem (weekday - dayOfWeek + 7) 7 + (n - 1) * 7 in
  JS.newDate tza year month date.

Definition lastWeekday (year month weekday : Z) : JS.Date :=
  let last := JS.newDate tza year (month + 1) 0 in
  let diff := JS.rem (JS.getDay tza last - weekday + 7) 7 in
  JS.newDate tza year month (JS.getDate tza last - diff).

(** The object literal, as the list of its entries in insertion order
    (the order [Object.entries] enumerates them in). *)
Definition getUtahHolidayDates (year : Z) : list (string * JS.Date) :=
  [ ("New Year's Day", JS.newDate tza year 0 1);
    ("MLK Day", nthWeekday year 0 1 3);
    ("Presidents Day", nthWeekday year 1 1 3);
    ("Spring Break", nthWeekday year 2 1 3);
    ("Memorial Day", lastWeekday year 4 1);
    ("Father's Day", nthWeekday year 5 0 3);
    ("Mother's Day", nthWeekday year 4 0 2);
    ("July 4th", JS.newDate tza year 6 4);
    ("Pioneer Day", JS.newDate tza year 6 24);
    ("Labor Day", nthWeekday year 8 1 1);
    ("Fall Break", nthWeekday year 9 4 3);
    ("Thanksgiving", nthWeekday year 10 4 4);
    ("Christmas 1st half", JS.newDate tza year 11 24);
    ("Christmas 2nd half", JS.newDate tza year 11 26) ].

(** ** Custody *)

Variable cfg : ScheduleConfig.

Definition isUserWeekend (date : JS.Date) : bool :=
  let ref := startOfDay (JS.newDateOfString (aw_referenceDate (alternatingWeekends cfg))) in
  let target := startOfDay date in
  let days := diffDays target ref in
  let weeks := JS.floorDiv days 7 in
  JS.rem weeks 2 =? 0.

(** The choice of [parent] inside the loop of [getHolidayAssignmentsForDate]
    (the same chain is repeated in [getUpcomingHolidays]). *)
Definition holidayParent (name : string) (year : Z) : Party :=
  if includes (alwaysUser (holidays cfg)) name then user
  else if includes (alwaysCoparent (holidays cfg)) name then coparent
  else if JS.rem year 2 =? 0 then
    if includes (evenYearUser (holidays cfg)) name then user else coparent
  else
    if includes (oddYearUser (holidays cfg)) name then user else coparent.

Fixpoint assignHolidays (date : JS.Date) (year : Z)
         (entries : list (string * JS.Date)) : list HolidayAssignment :=
  match entries with
  | [] => []
  | (name, holidayDate) :: rest =>
      if negb (diffDays date holidayDate =? 0) then assignHolidays date year rest
      else mkAssignment name holidayDate (holidayParent name year)
           :: assignHolidays date year rest
  end.

Definition getHolidayAssignmentsForDate (date : JS.Date) : list HolidayAssignment :=
  let year := JS.getFullYear tza date in
  assignHolidays date year (getUtahHolidayDates year).

Definition isDayInRange (d start end_ : Z) : bool :=
  if start <=? end_ then (d >=? start) && (d <=? end_)
  else (d >=? start) || (d <=? end_).

Definition otherParty (p : Party) : Party :=
  match p with user => coparent | coparent => user end.

(** The body of [getCustodyStatus] below the holiday check, on the
    day [d = startOfDay(date)]. *)
Definition recurringCustody (d : JS.Date) : result Party :=
  let dow := JS.getDay tza d in
  pickupDow <- dayIndex (aw_pickupDay (alternatingWeekends cfg)) ;;
  dropoffDow <- dayIndex (aw_dropoffDay (alternatingWeekends cfg)) ;;
  let isWeekendDay := isDayInRange dow pickupDow dropoffDow in
  if isWeekendDay then
    Ok (if isUserWeekend d then user else coparent)
  else
    overnightPickup <- dayIndex (wo_pickupDay (weekdayOvernight cfg)) ;;
    overnightDropoff <- dayIndex (wo_dropoffDay (weekdayOvernight cfg)) ;;
    if (dow =? overnightPickup) || (dow =? overnightDropoff) then
      Ok (wo_parent (weekdayOvernight cfg))
    else
      Ok (match wo_parent (weekdayOvernight cfg) with
          | user => coparent
          | coparent => user
          end).

Definition getCustodyStatus (date : JS.Date) : result Party :=
  let d := startOfDay date in
  match getHolidayAssignmentsForDate d with
  | h :: _ => Ok (ha_parent h)
  | [] => recurringCustody d
  end.

(** The [for] loop of [getNextTransition], from [i] with [fuel] iterations
    left; [None] when it runs to its end. *)
Fixpoint scanTransition (date : JS.Date) (current : Party) (fuel : nat) (i : Z)
  : result (option CustodyTransition) :=
  match fuel with
  | O => Ok None
  | S fuel' =>
      let next := addDays date i in
      nextStatus <- getCustodyStatus next ;;
      if negb (Party_eqb nextStatus current) then
        let desc :=
          match nextStatus with
          | user => "Children come to you (" ++ formatDate next ++ ")"
          | coparent =>
              "Children go to " ++ orDefault (COPARENT_NAME env) "co-parent"
              ++ " (" ++ formatDate next ++ ")"
          end in
        Ok (Some (mkTransition next desc))
      else scanTransition date current fuel' (i + 1)
  end.

Definition getNextTransition (date : JS.Date) : result CustodyTransition :=
  current <- getCustodyStatus date ;;
  found <- scanTransition date current 14 1 ;;
  match found with
  | Some t => Ok t
  | None =>
      pickupDow <- dayIndex (aw_pickupDay (alternatingWeekends cfg)) ;;
      let r := JS.rem (pickupDow - JS.getDay tza date + 7) 7 in
      let daysUntilFriday := if r =? 0 then 7 else r in
      let nextFriday := addDays date daysUntilFriday in
      Ok (mkTransition nextFriday ("Next weekend: " ++ formatDate nextFriday))
  end.

(** One iteration of the loop of [getWeekSummary]: the line for day [i]. *)
Definition weekLine (date : JS.Date) (i : Z) : result string :=
  let userName := orDefault (USER_NAME env) "You" in
  let coparentName := orDefault (COPARENT_NAME env) "Co-parent" in
  let d := addDays date i in
  status <- getCustodyStatus d ;;
  let dayName := shortDayName (JS.getDay tza d) in
  let who := match status with user => userName | coparent => coparentName end in
  prevStatus <- getCustodyStatus (addDays date (i - 1)) ;;
  nextStatus <- getCustodyStatus (addDays date (i + 1)) ;;
  let note :=
    if negb (Party_eqb status prevStatus) then " (pickup)"
    else if negb (Party_eqb status nextStatus) then " (drop-off)"
    else "" in
  Ok (dayName ++ ": " ++ who ++ note).

Fixpoint weekLines (date : JS.Date) (fuel : nat) (i : Z) : result (list string) :=
  match fuel with
  | O => Ok []
  | S fuel' =>
      line <- weekLine date i ;;
      rest <- weekLines date fuel' (i + 1) ;;
      Ok (line :: rest)
  end.

Definition getWeekSummary (date : JS.Date) : result string :=
  lines <- weekLines date 7 0 ;;
  Ok (join (String "010" "") lines).

End Engine.

(* ================================================================== *)
(** * School calendar overlay *)
(* ================================================================== *)

Section School.

Variable tza : Z.

Definition isWithinSchoolYear (date : JS.Date) (cal : SchoolCalendarConfig)
  : result bool :=
  let d := startOfDay tza date in
  match terms cal with
  | [] => Throw TypeError
  | t0 :: _ =>
      let firstTermStart := parseLocalDate tza (term_start t0) in
      let lastTermEnd := parseLocalDate tza (term_end (last (terms cal) t0)) in
      Ok ((d >=? firstTermStart) && (d <=? lastTermEnd))
  end.

Fixpoint currentTermIn (d : JS.Date) (ts : list Term) : option string :=
  match ts with
  | [] => None
  | term :: rest =>
      let start := parseLocalDate tza (term_start term) in
      let end_ := parseLocalDate tza (term_end term) in
      if (d >=? start) && (d <=? end_) then Some (term_name term)
      else currentTermIn d rest
  end.

Definition getCurrentTerm (date : JS.Date) (cal : SchoolCalendarConfig)
  : option string :=
  currentTermIn (startOfDay tza date) (terms cal).

Definition eventCovers (d : JS.Date) (event : CalendarEvent) : bool :=
  let eventStart := parseLocalDate tza (ev_date event) in
  match ev_endDate event with
  | Some iso =>
      let eventEnd := parseLocalDate tza iso in
      (d >=? eventStart) && (d <=? eventEnd)
  | None => JS.getTime d =? JS.getTime eventStart
  end.

Definition getEventsForDate (date : JS.Date) (cal : SchoolCalendarConfig)
  : list CalendarEvent :=
  filter (eventCovers (startOfDay tza date)) (events cal).

(** [cal] is what [loadSchoolCalendar()] returned ([None] for [null]);
    [now] stands for [new Date()]. *)
Definition getSchoolSchedule (cal : option SchoolCalendarConfig)
           (now : JS.Date) (date : option JS.Date)
  : result (option SchoolDayInfo) :=
  match cal with
  | None => Ok None
  | Some cal =>
      let d := startOfDay tza (match date with Some x => x | None => now end) in
      let child := Some (sc_child (school cal)) in
      let schoolName := Some (sc_shortName (school cal)) in
      within <- isWithinSchoolYear d cal ;;
      if negb within then
        Ok (Some (mkSchoolDayInfo not_in_session None None None None
                                  child schoolName))
      else
        let term := getCurrentTerm d cal in
        let dow := JS.getDay tza d in
        if (dow =? 0) || (dow =? 6) then
          Ok (Some (mkSchoolDayInfo not_in_session None None None term
                                    child schoolName))
        else
          let events := getEventsForDate d cal in
          match find (fun e => EventType_eqb (ev_type e) no_school) events with
          | Some noSchool =>
              Ok (Some (mkSchoolDayInfo session_no_school None None
                          (Some (ev_name noSchool)) term child schoolName))
          | None =>
              match find (fun e => EventType_eqb (ev_type e) early_release) events with
              | Some earlyRelease =>
                  Ok (Some (mkSchoolDayInfo session_early_release
                              (Some (earlyOutStart (schedule cal)))
                              (Some (earlyOutEnd (schedule cal)))
                              (Some (ev_name earlyRelease)) term child schoolName))
              | None =>
                  let dayName := nth (Z.to_nat dow) DAYS "" in
                  if includes (earlyOutDays (schedule cal)) dayName then
                    Ok (Some (mkSchoolDayInfo session_early_release
                                (Some (earlyOutStart (schedule cal)))
                                (Some (earlyOutEnd (schedule cal)))
                                (Some "Weekly early release") term child schoolName))
                  else
                    Ok (Some (mkSchoolDayInfo regular
                                (Some (regularStart (schedule cal)))
                                (Some (regularEnd (schedule cal)))
                                None term child schoolName))
              end
          end
  end.

End School.

(* ================================================================== *)
(** * The configuration cache *)
(* ================================================================== *)

Module Store.

(** The two files under [config/], as their parsed contents; [None] is a file
    that does not exist. *)
Record FileSystem : Type := mkFS {
  schedule_json : option ScheduleConfig;
  school_calendar_json : option SchoolCalendarConfig
}.

(** The module-level variables [config] and [schoolCalConfig]
    ([None] is [null] for the first and [undefined] for the second). *)
Record State : Type := mkState {
  files : FileSystem;
  config : option ScheduleConfig;
  schoolCalConfig : option (option SchoolCalendarConfig)
}.

Definition M (A : Type) : Type := State -> result A * State.

Definition ret {A : Type} (a : A) : M A := fun st => (Ok a, st).

Definition bindM {A B : Type} (m : M A) (k : A -> M B) : M B :=
  fun st =>
    match m st with
    | (Ok a, st') => k a st'
    | (Throw e, st') => (Throw e, st')
    end.

Definition lift {A : Type} (r : result A) : M A := fun st => (r, st).

Definition loadConfig : M ScheduleConfig :=
  fun st =>
    match config st with
    | Some c => (Ok c, st)
    | None =>
        match schedule_json (files st) with
        | None => (Throw ConfigNotFound, st)
        | Some c => (Ok c, mkState (files st) (Some c) (schoolCalConfig st))
        end
    end.

(** [reloadConfig] writes [null] into both variables; for [schoolCalConfig]
    that is the value [Some None]. *)
Definition reloadConfig : M unit :=
  fun st =>
    bindM loadConfig (fun _ => ret tt) (mkState (files st) None (Some None)).

Definition loadSchoolCalendar : M (option SchoolCalendarConfig) :=
  fun st =>
    match schoolCalConfig st with
    | Some c => (Ok c, st)
    | None =>
        let c := school_calendar_json (files st) in
        (Ok c, mkState (files st) (config st) (Some c))
    end.

(** The exported queries: each starts with [loadConfig()]; the nested calls of
    [loadConfig] then find the cache filled and return the same object. *)
Definition getCustodyStatus (tza : Z) (date : JS.Date) : M Party :=
  bindM loadConfig (fun cfg => lift (getCustodyStatus tza cfg date)).

Definition getNextTransition (tza : Z) (env : Env) (date : JS.Date)
  : M CustodyTransition :=
  bindM loadConfig (fun cfg => lift (getNextTransition tza env cfg date)).

Definition getWeekSummary (tza : Z) (env : Env) (date : JS.Date) : M string :=
  bindM loadConfig (fun cfg => lift (getWeekSummary tza env cfg date)).

(** A fresh process: nothing loaded yet. *)
Definition initial (fs : FileSystem) : State := mkState fs None None.

End Store.

(* ================================================================== *)
(** * Vocabulary of the statements *)
(* ================================================================== *)

(** The four weekday names of a configuration are recognised day names, with
    these indices. *)
Definition configWeekdays (cfg : ScheduleConfig) (pw dw op od : Z) : Prop :=
  dayIndex (aw_pickupDay (alternatingWeekends cfg)) = Ok pw /\
  dayIndex (aw_dropoffDay (alternatingWeekends cfg)) = Ok dw /\
  dayIndex (wo_pickupDay (weekdayOvernight cfg)) = Ok op /\
  dayIndex (wo_dropoffDay (weekdayOvernight cfg)) = Ok od.

(** Weekday [w] lies in the cyclic interval [p..q] of the week. *)
Definition inCyclicRange (w p q : Z) : Prop :=
  (p <= q /\ p <= w <= q) \/ (p > q /\ (w >= p \/ w <= q)).

(** The holiday [name] of [d]'s year falls on the calendar day of [d]. *)
Definition holidayOn (tza : Z) (d : JS.Date) (name : string) : Prop :=
  exists hd,
    In (name, hd) (getUtahHolidayDates tza (JS.getFullYear tza d)) /\
    JS.localDay tza hd = JS.localDay tza d.

(** Day number of the calendar date written in a [YYYY-MM-DD] string. *)
Definition isoDayNumber (iso : JS.IsoDate) : Z :=
  JS.MakeDay (JS.isoYear iso) (JS.isoMonth iso - 1) (JS.isoDay iso).

(** The alternation rule in the words of the specification: whole days from
    the configured reference date to [d], whole weeks by floor division, user
    on the even weeks. *)
Definition isUserWeekend_spec (tza : Z) (cfg : ScheduleConfig) (d : JS.Date) : bool :=
  let days := JS.localDay tza d - isoDayNumber (aw_referenceDate (alternatingWeekends cfg)) in
  Z.even (days / 7).

(** An event covers the calendar day of [d]. *)
Definition covers (tza : Z) (e : CalendarEvent) (d : JS.Date) : Prop :=
  match ev_endDate e with
  | Some iso => isoDayNumber (ev_date e) <= JS.localDay tza d <= isoDayNumber iso
  | None => JS.localDay tza d = isoDayNumber (ev_date e)
  end.

(** The calendar day of [d] lies inside the term [t], both ends included. *)
Definition inTerm (tza : Z) (t : Term) (d : JS.Date) : Prop :=
  isoDayNumber (term_start t) <= JS.localDay tza d <= isoDayNumber (term_end t).

(** The annotation of a line of the week summary. *)
Definition noteOf (status prev next : Party) : string :=
  if negb (Party_eqb status prev) then " (pickup)"
  else if negb (Party_eqb status next) then " (drop-off)"
  else "".

(* ================================================================== *)
(** * Sample inputs *)
(* ================================================================== *)

Module Sample.

(** Mountain Standard Time (Utah), seven hours behind UTC. *)
Definition tzDenver : Z := -7 * 3600000.

(** Central European Time, one hour ahead of UTC. *)
Definition tzBerlin : Z := 3600000.

Definition noEnv : Env := mkEnv None None.

(** A schedule in the shape of the statutory one: Wednesday overnight,
    weekends from Friday to Sunday alternating from Friday 2024-01-05. *)
Definition cfg : ScheduleConfig :=
  mkScheduleConfig
    (mkWeekdayOvernight user "wednesday" "thursday")
    (mkAlternatingWeekends (JS.mkIso 2024 1 5) "Friday" "18:00" "Sunday" "18:00")
    (mkHolidayRules ["Thanksgiving"; "July 4th"] ["Memorial Day"; "Labor Day"]
                    ["Father's Day"] ["Mother's Day"]).

(** The same with Thanksgiving listed for the user in even and in odd years. *)
Definition cfgBothParities : ScheduleConfig :=
  mkScheduleConfig (weekdayOvernight cfg) (alternatingWeekends cfg)
    (mkHolidayRules ["Thanksgiving"] ["Thanksgiving"] [] []).

(** The same with a misspelt weekend pickup day. *)
Definition cfgMisspelt : ScheduleConfig :=
  mkScheduleConfig (weekdayOvernight cfg)
    (mkAlternatingWeekends (JS.mkIso 2024 1 5) "fryday" "18:00" "sunday" "18:00")
    (holidays cfg).

(** An overnight that is picked up and dropped off on the same weekday. *)
Definition cfgOneDay : ScheduleConfig :=
  mkScheduleConfig (mkWeekdayOvernight user "wednesday" "wednesday")
    (alternatingWeekends cfg) (holidays cfg).

(** A school year of two terms with a holiday, a two-day early release and a
    milestone; Fridays are the weekly early-out days. *)
Definition school : SchoolCalendarConfig :=
  mkSchoolCalendar
    (mkSchoolInfo "Sample Elementary School" "Sample Elementary" "2024-2025" "Sam")
    (mkDailySchedule "08:45" "15:25" "08:45" "13:15" ["friday"])
    [mkTerm "Fall" (JS.mkIso 2024 8 20) (JS.mkIso 2024 12 20);
     mkTerm "Spring" (JS.mkIso 2025 1 6) (JS.mkIso 2025 5 30)]
    [mkEvent (JS.mkIso 2024 9 2) None no_school "Labor Day";
     mkEvent (JS.mkIso 2024 10 10) (Some (JS.mkIso 2024 10 11)) early_release
             "Parent conferences";
     mkEvent (JS.mkIso 2024 9 10) None milestone "Picture day"].

(** Local midnight of a calendar date in Utah (months counted from 1). *)
Definition utah (y m d : Z) : JS.Date := JS.newDate tzDenver y (m - 1) d.

End Sample.

(* ================================================================== *)
(** * Proof automation *)
(* ================================================================== *)

Ltac month_cascade :=
  unfold JS.monthOfYearDay;
  repeat match goal with
         | |- context [?a <? ?b] => destruct (Z.ltb_spec a b)
         end.

Ltac month_table :=
  repeat match goal with
         | |- context [JS.monthStart ?a ?b] =>
             let v := eval vm_compute in (JS.monthStart a b) in
             change (JS.monthStart a b) with v
         end.

Ltac month_cases m :=
  let C := fresh "C" in
  assert (m = 0 \/ m = 1 \/ m = 2 \/ m = 3 \/ m = 4 \/ m = 5 \/ m = 6 \/ m = 7
          \/ m = 8 \/ m = 9 \/ m = 10 \/ m = 11) as C by lia;
  repeat destruct C as [C|C]; subst m.

(** Closes the branches of the resolution order that the facts at hand
    exclude, and the one they select. *)
Ltac school_case :=
  repeat (first [split | intro]);
  try contradiction; try reflexivity;
  try solve
      [ exfalso;
        match goal with
        | H : forall e, ~ _, C : _ |- _ => exact (H _ C)
        end
      | exfalso;
        match goal with
        | H : forall e, ~ _, C : exists e, _ |- _ =>
            let x := fresh in destruct C as [x C]; exact (H x C)
        end
      | eexists; split; [eassumption | reflexivity] ].

(* ================================================================== *)
(** * Calendar facts *)
(* ================================================================== *)

Lemma DayFromYear_step (y : Z) :
  JS.DayFromYear (y + 1) = JS.DayFromYear y + JS.DaysInYear y.
Proof.
  unfold JS.DayFromYear, JS.DaysInYear.
  repeat match goal with
         | |- context [?a =? ?b] => destruct (Z.eqb_spec a b); cbn [negb]
         end; Z.div_mod_to_equations; lia.
Qed.

Lemma DaysInYear_cases (y : Z) : JS.DaysInYear y = 365 \/ JS.DaysInYear y = 366.
Proof.
  unfold JS.DaysInYear.
  repeat match goal with
         | |- context [?a =? ?b] => destruct (Z.eqb_spec a b); cbn [negb]
         end; auto.
Qed.

Lemma YearFromDay_bounds (d : Z) :
  JS.DayFromYear (JS.YearFromDay d) <= d < JS.DayFromYear (JS.YearFromDay d + 1).
Proof.
  unfold JS.YearFromDay.
  set (y := 1970 + 400 * d / 146097).
  destruct (Z.ltb_spec d (JS.DayFromYear y)) as [H1|H1].
  - replace (y - 1 + 1) with y by lia. split; [|lia].
    unfold JS.DayFromYear in *. subst y. Z.div_mod_to_equations. lia.
  - destruct (Z.leb_spec (JS.DayFromYear (y + 1)) d) as [H2|H2]; [|lia].
    split; [lia|].
    unfold JS.DayFromYear in *. subst y. Z.div_mod_to_equations. lia.
Qed.

Lemma DayFromYear_mono (a b : Z) : a <= b -> JS.DayFromYear a <= JS.DayFromYear b.
Proof.
  intros H. unfold JS.DayFromYear. Z.div_mod_to_equations. lia.
Qed.

Lemma YearFromDay_unique (y d : Z) :
  JS.DayFromYear y <= d < JS.DayFromYear (y + 1) -> JS.YearFromDay d = y.
Proof.
  intros H. pose proof (YearFromDay_bounds d) as B.
  destruct (Z.lt_trichotomy (JS.YearFromDay d) y) as [L|[E|G]]; [|exact E|].
  - pose proof (DayFromYear_mono (JS.YearFromDay d + 1) y ltac:(lia)). lia.
  - pose proof (DayFromYear_mono (y + 1) (JS.YearFromDay d) ltac:(lia)). lia.
Qed.

Lemma InLeapYear_cases (d : Z) : JS.InLeapYear d = 0 \/ JS.InLeapYear d = 1.
Proof. unfold JS.InLeapYear. destruct (DaysInYear_cases (JS.YearFromDay d)); lia. Qed.

Lemma DayWithinYear_bounds (d : Z) :
  0 <= JS.DayWithinYear d < 365 + JS.InLeapYear d.
Proof.
  unfold JS.DayWithinYear, JS.InLeapYear.
  pose proof (YearFromDay_bounds d). rewrite DayFromYear_step in *. lia.
Qed.

Lemma monthOfYearDay_bounds (l w : Z) : 0 <= JS.monthOfYearDay l w <= 11.
Proof. month_cascade; lia. Qed.

Lemma MonthFromDay_bounds (d : Z) : 0 <= JS.MonthFromDay d <= 11.
Proof. apply monthOfYearDay_bounds. Qed.

Lemma DateFromDay_bounds (d : Z) : 1 <= JS.DateFromDay d <= 31.
Proof.
  unfold JS.DateFromDay, JS.MonthFromDay.
  pose proof (DayWithinYear_bounds d). destruct (InLeapYear_cases d) as [E|E];
    rewrite E in *; month_cascade; cbn [JS.monthStart]; lia.
Qed.

(** A day inside month [m] of a year: where it lies in the year, and that the
    table of MonthFromTime finds [m] again. *)
Lemma month_window (l m dt : Z) :
  l = 0 \/ l = 1 ->
  0 <= m <= 11 ->
  1 <= dt <= JS.monthLength l m ->
  0 <= JS.monthStart l m + dt - 1 < 365 + l /\
  JS.monthOfYearDay l (JS.monthStart l m + dt - 1) = m.
Proof.
  intros [Hl|Hl] Hm; subst l; month_cases m; unfold JS.monthLength;
    month_table; intros Hd; (split; [lia|month_cascade; lia]).
Qed.

(** Every day number is the [MakeDay] of its own year, month and date. *)
Lemma MakeDay_civil (d : Z) :
  JS.MakeDay (JS.YearFromDay d) (JS.MonthFromDay d) (JS.DateFromDay d) = d.
Proof.
  pose proof (MonthFromDay_bounds d) as Hm.
  unfold JS.MakeDay.
  rewrite (Z.div_small (JS.MonthFromDay d) 12), (Z.mod_small (JS.MonthFromDay d) 12) by lia.
  rewrite Z.add_0_r. unfold JS.DateFromDay, JS.DayWithinYear, JS.InLeapYear. lia.
Qed.

Lemma MakeDay_in_year (y m dt : Z) :
  0 <= m <= 11 ->
  JS.MakeDay y m dt = JS.DayFromYear y + JS.monthStart (JS.DaysInYear y - 365) m + dt - 1.
Proof.
  intros Hm. unfold JS.MakeDay.
  rewrite (Z.div_small m 12), (Z.mod_small m 12), Z.add_0_r by lia. reflexivity.
Qed.

(** A valid calendar date is read back from its day number. *)
Lemma MakeDay_inv (y m dt : Z) :
  0 <= m <= 11 ->
  1 <= dt <= JS.monthLength (JS.DaysInYear y - 365) m ->
  JS.YearFromDay (JS.MakeDay y m dt) = y /\
  JS.MonthFromDay (JS.MakeDay y m dt) = m /\
  JS.DateFromDay (JS.MakeDay y m dt) = dt.
Proof.
  intros Hm Hd. rewrite MakeDay_in_year by exact Hm.
  assert (Hl : JS.DaysInYear y - 365 = 0 \/ JS.DaysInYear y - 365 = 1)
    by (destruct (DaysInYear_cases y); lia).
  destruct (month_window _ m dt Hl Hm Hd) as [Hw HM].
  remember (JS.DaysInYear y - 365) as l eqn:El.
  remember (JS.DayFromYear y + JS.monthStart l m + dt - 1) as D eqn:ED.
  assert (Hy : JS.YearFromDay D = y).
  { apply YearFromDay_unique. rewrite DayFromYear_step. lia. }
  assert (HW : JS.DayWithinYear D = JS.monthStart l m + dt - 1).
  { unfold JS.DayWithinYear. rewrite Hy. lia. }
  assert (HL : JS.InLeapYear D = l).
  { unfold JS.InLeapYear. rewrite Hy. lia. }
  assert (HM' : JS.MonthFromDay D = m).
  { unfold JS.MonthFromDay. rewrite HW, HL. exact HM. }
  split; [exact Hy|]. split; [exact HM'|].
  unfold JS.DateFromDay. rewrite HW, HL, HM'. lia.
Qed.

(* ================================================================== *)
(** * Local time *)
(* ================================================================== *)

Lemma MakeDay_shift (y m dt n : Z) : JS.MakeDay y m (dt + n) = JS.MakeDay y m dt + n.
Proof. unfold JS.MakeDay. lia. Qed.

Lemma localDay_newDate (tza y m dt : Z) :
  JS.localDay tza (JS.newDate tza y m dt) = JS.MakeDay y m dt.
Proof.
  unfold JS.localDay, JS.newDate, JS.Day, JS.msPerDay.
  replace (JS.MakeDay y m dt * 86400000 - tza + tza) with (JS.MakeDay y m dt * 86400000) by lia.
  apply Z.div_mul. lia.
Qed.

Lemma startOfDay_eq (tza : Z) (d : JS.Date) :
  startOfDay tza d = JS.localDay tza d * JS.msPerDay - tza.
Proof.
  unfold startOfDay, JS.newDate, JS.getFullYear, JS.getMonth, JS.getDate.
  rewrite MakeDay_civil. reflexivity.
Qed.

Lemma localDay_startOfDay (tza : Z) (d : JS.Date) :
  JS.localDay tza (startOfDay tza d) = JS.localDay tza d.
Proof.
  unfold startOfDay, JS.getFullYear, JS.getMonth, JS.getDate.
  rewrite localDay_newDate. apply MakeDay_civil.
Qed.

Lemma startOfDay_idem (tza : Z) (d : JS.Date) :
  startOfDay tza (startOfDay tza d) = startOfDay tza d.
Proof.
  rewrite (startOfDay_eq tza (startOfDay tza d)), localDay_startOfDay.
  symmetry. apply startOfDay_eq.
Qed.

Lemma addDays_eq (tza : Z) (d : JS.Date) (n : Z) :
  addDays tza d n = d + n * JS.msPerDay.
Proof.
  unfold addDays, JS.setDate, JS.getFullYear, JS.getMonth, JS.getDate.
  rewrite MakeDay_shift, MakeDay_civil.
  unfold JS.localDay, JS.Day, JS.TimeWithinDay, JS.msPerDay.
  Z.div_mod_to_equations. lia.
Qed.

Lemma localDay_addDays (tza : Z) (d : JS.Date) (n : Z) :
  JS.localDay tza (addDays tza d n) = JS.localDay tza d + n.
Proof.
  rewrite addDays_eq. unfold JS.localDay, JS.Day.
  replace (d + n * JS.msPerDay + tza) with (d + tza + n * JS.msPerDay) by lia.
  apply Z.div_add. unfold JS.msPerDay. lia.
Qed.

Lemma diffDays_eq (tza : Z) (a b : JS.Date) :
  diffDays tza a b = JS.localDay tza a - JS.localDay tza b.
Proof.
  unfold diffDays, JS.getTime, JS.roundDiv. rewrite !startOfDay_eq.
  unfold JS.msPerDay. Z.div_mod_to_equations. lia.
Qed.

Lemma getDay_range (tza : Z) (d : JS.Date) : 0 <= JS.getDay tza d <= 6.
Proof. unfold JS.getDay, JS.WeekDayOfDay. Z.div_mod_to_equations. lia. Qed.

Lemma getDay_startOfDay (tza : Z) (d : JS.Date) :
  JS.getDay tza (startOfDay tza d) = JS.getDay tza d.
Proof. unfold JS.getDay. rewrite localDay_startOfDay. reflexivity. Qed.

Lemma getFullYear_startOfDay (tza : Z) (d : JS.Date) :
  JS.getFullYear tza (startOfDay tza d) = JS.getFullYear tza d.
Proof. unfold JS.getFullYear. rewrite localDay_startOfDay. reflexivity. Qed.

(* ================================================================== *)
(** * Weekend range (C3) *)
(* ================================================================== *)

Lemma isDayInRange_iff (w p q : Z) :
  isDayInRange w p q = true <-> inCyclicRange w p q.
Proof.
  unfold isDayInRange, inCyclicRange.
  destruct (Z.leb_spec p q); rewrite ?andb_true_iff, ?orb_true_iff, Z.geb_leb, !Z.leb_le; lia.
Qed.

(** C3, as amended.  The containment test of [getCustodyStatus] treats the
    pickup..dropoff weekdays as a cyclic interval: a plain numeric range when
    [p <= q], and [w >= p] or [w <= q] when [p > q].  With Sunday numbered 0,
    Friday..Sunday (5 > 0) and Saturday..Monday (6 > 1) are both wrapping
    ranges, and each weekday 0..6 is classified as expected in both. *)
Theorem isDayInRange_cyclic :
  (forall w p q : Z,
      (p <= q -> (isDayInRange w p q = true <-> p <= w <= q)) /\
      (p > q -> (isDayInRange w p q = true <-> w >= p \/ w <= q))) /\
  dayIndex "friday" = Ok 5 /\ dayIndex "sunday" = Ok 0 /\
  dayIndex "saturday" = Ok 6 /\ dayIndex "monday" = Ok 1 /\
  map (fun w => isDayInRange w 5 0) [0; 1; 2; 3; 4; 5; 6]
  = [true; false; false; false; false; true; true] /\
  map (fun w => isDayInRange w 6 1) [0; 1; 2; 3; 4; 5; 6]
  = [true; true; false; false; false; false; true].
Proof.
  split; [|repeat split; reflexivity].
  intros w p q. pose proof (isDayInRange_iff w p q) as H. unfold inCyclicRange in H.
  split; intros Hpq; rewrite H; lia.
Qed.

Lemma isDayInRange_cyclic_witness :
  (isDayInRange 3 1 5 = true <-> 1 <= 3 <= 5) /\
  (isDayInRange 6 5 0 = true <-> 6 >= 5 \/ 6 <= 0).
Proof.
  split.
  - apply (proj1 isDayInRange_cyclic 3 1 5). lia.
  - apply (proj1 isDayInRange_cyclic 6 5 0). lia.
Defined.

(** Friday..Sunday is not a non-wrapping range: its pickup index is above its
    dropoff index, and the plain numeric range would leave Saturday out. *)
Lemma friday_sunday_wraps :
  dayIndex "friday" = Ok 5 /\ dayIndex "sunday" = Ok 0 /\ ~ (5 <= 0) /\
  isDayInRange 6 5 0 = true /\ ~ (5 <= 6 <= 0).
Proof. repeat split; try reflexivity; lia. Qed.

(* ================================================================== *)
(** * Holiday assignment (C5) *)
(* ================================================================== *)

Lemma includes_In (l : list string) (x : string) : includes l x = true <-> In x l.
Proof.
  unfold includes. rewrite existsb_exists. split.
  - intros [y [Hy E]]. apply String.eqb_eq in E. subst. exact Hy.
  - intros H. exists x. split; [exact H|apply String.eqb_refl].
Qed.

Lemma includes_not_In (l : list string) (x : string) : includes l x = false <-> ~ In x l.
Proof. rewrite <- includes_In. destruct (includes l x); intuition congruence. Qed.

Lemma rem2_even (n : Z) : (JS.rem n 2 =? 0) = Z.even n.
Proof.
  unfold JS.rem. destruct (Z.even n) eqn:E.
  - apply Z.eqb_eq. apply Z.even_spec in E. destruct E as [k ->].
    rewrite Z.mul_comm. apply Z.rem_mul. lia.
  - apply Z.eqb_neq. intros H. apply Z.rem_divide in H; [|lia].
    destruct H as [k ->]. rewrite Z.mul_comm, Z.even_mul in E. discriminate.
Qed.

(** C5, as amended.  The party of a holiday is resolved by a strict
    priority chain: [alwaysUser], then [alwaysCoparent], then the parity of
    the year against [evenYearUser] or [oddYearUser].  A holiday listed in
    [evenYearUser], in neither always-list and not in [oddYearUser] is the
    user's in 2024 and the coparent's in 2025. *)
Theorem holidayParent_chain (cfg : ScheduleConfig) (name : string) (year : Z) :
  let h := holidays cfg in
  (In name (alwaysUser h) -> holidayParent cfg name year = user) /\
  (~ In name (alwaysUser h) -> In name (alwaysCoparent h) ->
   holidayParent cfg name year = coparent) /\
  (~ In name (alwaysUser h) -> ~ In name (alwaysCoparent h) -> Z.even year = true ->
   (In name (evenYearUser h) -> holidayParent cfg name year = user) /\
   (~ In name (evenYearUser h) -> holidayParent cfg name year = coparent)) /\
  (~ In name (alwaysUser h) -> ~ In name (alwaysCoparent h) -> Z.even year = false ->
   (In name (oddYearUser h) -> holidayParent cfg name year = user) /\
   (~ In name (oddYearUser h) -> holidayParent cfg name year = coparent)) /\
  (In name (evenYearUser h) -> ~ In name (oddYearUser h) ->
   ~ In name (alwaysUser h) -> ~ In name (alwaysCoparent h) ->
   holidayParent cfg name 2024 = user /\ holidayParent cfg name 2025 = coparent).
Proof.
  intros h. subst h. unfold holidayParent. rewrite !rem2_even.
  repeat split; intros;
    repeat match goal with
           | H : In _ _ |- _ => apply includes_In in H; rewrite H
           | H : ~ In _ _ |- _ => apply includes_not_In in H; rewrite H
           | H : Z.even _ = _ |- _ => rewrite H; clear H
           end; reflexivity.
Qed.

Lemma holidayParent_chain_witness :
  holidayParent Sample.cfg "Thanksgiving" 2024 = user /\
  holidayParent Sample.cfg "Thanksgiving" 2025 = coparent.
Proof.
  apply (holidayParent_chain Sample.cfg "Thanksgiving" 2024).
  - simpl. auto.
  - simpl. intros [H|[H|H]]; try discriminate H; exact H.
  - simpl. intros [H|H]; try discriminate H; exact H.
  - simpl. intros [H|H]; try discriminate H; exact H.
Defined.

(** A holiday of [evenYearUser] that is also in [oddYearUser] stays with the
    user in 2025, with no always-override involved. *)
Lemma both_parities_stay_with_user :
  In "Thanksgiving" (evenYearUser (holidays Sample.cfgBothParities)) /\
  ~ In "Thanksgiving" (alwaysUser (holidays Sample.cfgBothParities)) /\
  ~ In "Thanksgiving" (alwaysCoparent (holidays Sample.cfgBothParities)) /\
  holidayParent Sample.cfgBothParities "Thanksgiving" 2024 = user /\
  holidayParent Sample.cfgBothParities "Thanksgiving" 2025 = user.
Proof. simpl. repeat split; auto. Qed.

(* ================================================================== *)
(** * Alternating weekends (C2) *)
(* ================================================================== *)

(** What the code computes: whole days from the local calendar day of the
    instant [new Date(referenceDate)], floor-divided into weeks. *)
Lemma isUserWeekend_days (tza : Z) (cfg : ScheduleConfig) (d : JS.Date) :
  isUserWeekend tza cfg d =
  Z.even ((JS.localDay tza d
           - JS.localDay tza (JS.newDateOfString (aw_referenceDate (alternatingWeekends cfg)))) / 7).
Proof.
  unfold isUserWeekend, JS.floorDiv.
  rewrite rem2_even, diffDays_eq, !localDay_startOfDay. reflexivity.
Qed.

(** The instant [new Date("YYYY-MM-DD")] is midnight UTC: at or east of
    Greenwich its local calendar day is the day written in the string, west of
    Greenwich it is the day before. *)
Lemma localDay_newDateOfString (tza : Z) (iso : JS.IsoDate) :
  (0 <= tza < JS.msPerDay ->
   JS.localDay tza (JS.newDateOfString iso) = isoDayNumber iso) /\
  (- JS.msPerDay <= tza < 0 ->
   JS.localDay tza (JS.newDateOfString iso) = isoDayNumber iso - 1).
Proof.
  unfold JS.localDay, JS.newDateOfString, isoDayNumber, JS.Day, JS.msPerDay.
  split; intros H; Z.div_mod_to_equations; lia.
Qed.

(** East of Greenwich the code follows the rule of the specification. *)
Lemma isUserWeekend_east (tza : Z) (cfg : ScheduleConfig) (d : JS.Date) :
  0 <= tza < JS.msPerDay ->
  isUserWeekend tza cfg d = isUserWeekend_spec tza cfg d.
Proof.
  intros H. rewrite isUserWeekend_days.
  rewrite (proj1 (localDay_newDateOfString tza _) H). reflexivity.
Qed.

(** West of Greenwich the alternation is anchored one day early. *)
Lemma isUserWeekend_west (tza : Z) (cfg : ScheduleConfig) (d : JS.Date) :
  - JS.msPerDay <= tza < 0 ->
  isUserWeekend tza cfg d =
  Z.even ((JS.localDay tza d
           - (isoDayNumber (aw_referenceDate (alternatingWeekends cfg)) - 1)) / 7).
Proof.
  intros H. rewrite isUserWeekend_days.
  rewrite (proj2 (localDay_newDateOfString tza _) H). reflexivity.
Qed.

(** The three dated examples of the specification hold in every time zone:
    with the reference 2024-01-05, the Fridays 2024-01-05, 2024-01-12 and
    2023-12-29 are the user's, the coparent's and the coparent's. *)
Lemma isUserWeekend_examples (tza : Z) :
  - JS.msPerDay <= tza < JS.msPerDay ->
  isUserWeekend tza Sample.cfg (JS.newDate tza 2024 0 5) = true /\
  isUserWeekend tza Sample.cfg (JS.newDate tza 2024 0 12) = false /\
  isUserWeekend tza Sample.cfg (JS.newDate tza 2023 11 29) = false.
Proof.
  intros H. rewrite !isUserWeekend_days, !localDay_newDate.
  assert (C : 0 <= tza < JS.msPerDay \/ - JS.msPerDay <= tza < 0) by lia.
  destruct C as [C|C].
  - rewrite (proj1 (localDay_newDateOfString tza _) C). repeat split; reflexivity.
  - rewrite (proj2 (localDay_newDateOfString tza _) C). repeat split; reflexivity.
Qed.

(** The same Thursday seen from Berlin (UTC+1), where the reference instant
    still lies on 2024-01-05: the code answers as the specification does. *)
Example isUserWeekend_east_of_greenwich :
  isUserWeekend Sample.tzBerlin Sample.cfg (JS.newDate Sample.tzBerlin 2024 0 4) = false /\
  isUserWeekend_spec Sample.tzBerlin Sample.cfg (JS.newDate Sample.tzBerlin 2024 0 4) = false.
Proof. vm_compute. split; reflexivity. Qed.

(** C2, at the input where the code leaves it.  In Utah (UTC-7), with the
    reference date 2024-01-05, the code anchors the alternation on Thursday
    2024-01-04: for that Thursday it counts 0 days and answers user, where the
    rule of the specification counts -1 day, week -1, and answers coparent. *)
Theorem isUserWeekend_reference_shifted :
  let d := Sample.utah 2024 1 4 in
  JS.localDay Sample.tzDenver
    (startOfDay Sample.tzDenver
       (JS.newDateOfString (aw_referenceDate (alternatingWeekends Sample.cfg))))
  = isoDayNumber (JS.mkIso 2024 1 4) /\
  diffDays Sample.tzDenver d
    (startOfDay Sample.tzDenver
       (JS.newDateOfString (aw_referenceDate (alternatingWeekends Sample.cfg)))) = 0 /\
  isUserWeekend Sample.tzDenver Sample.cfg d = true /\
  isUserWeekend_spec Sample.tzDenver Sample.cfg d = false /\
  parseLocalDate Sample.tzDenver (aw_referenceDate (alternatingWeekends Sample.cfg))
  = Sample.utah 2024 1 5.
Proof. vm_compute. repeat split; reflexivity. Qed.

(* ================================================================== *)
(** * Floating holidays (C4) *)
(* ================================================================== *)

Lemma getDay_addDays (tza : Z) (d : JS.Date) (n : Z) :
  JS.getDay tza (addDays tza d n) = (JS.getDay tza d + n) mod 7.
Proof.
  unfold JS.getDay, JS.WeekDayOfDay. rewrite localDay_addDays.
  Z.div_mod_to_equations. lia.
Qed.

Lemma newDate_shift (tza y m dt n : Z) :
  JS.newDate tza y m (dt + n) = addDays tza (JS.newDate tza y m dt) n.
Proof. rewrite addDays_eq. unfold JS.newDate. rewrite MakeDay_shift. lia. Qed.

Lemma MakeDay_norm (y m dt : Z) :
  JS.MakeDay y m dt = JS.MakeDay (y + m / 12) (m mod 12) dt.
Proof.
  unfold JS.MakeDay.
  pose proof (Z.mod_pos_bound m 12 ltac:(lia)).
  rewrite (Z.div_small (m mod 12) 12), (Z.mod_small (m mod 12) 12), Z.add_0_r by lia.
  reflexivity.
Qed.

Lemma monthLength_bounds (l m : Z) :
  l = 0 \/ l = 1 -> 0 <= m <= 11 -> 28 <= JS.monthLength l m <= 31.
Proof.
  intros [Hl|Hl] Hm; subst l; month_cases m; unfold JS.monthLength; month_table; lia.
Qed.

Lemma leap_cases (y : Z) : JS.DaysInYear y - 365 = 0 \/ JS.DaysInYear y - 365 = 1.
Proof. destruct (DaysInYear_cases y); lia. Qed.

(** The first of the next month comes a month's length after the first. *)
Lemma MakeDay_next_month (y m : Z) :
  JS.MakeDay y (m + 1) 1
  = JS.MakeDay y m 1 + JS.monthLength (JS.DaysInYear (y + m / 12) - 365) (m mod 12).
Proof.
  assert (C : ((m + 1) / 12 = m / 12 /\ (m + 1) mod 12 = m mod 12 + 1 /\ m mod 12 < 11)
              \/ ((m + 1) / 12 = m / 12 + 1 /\ (m + 1) mod 12 = 0 /\ m mod 12 = 11))
    by (Z.div_mod_to_equations; lia).
  unfold JS.MakeDay, JS.monthLength.
  destruct C as [[E1 [E2 _]]|[E1 [E2 E3]]]; rewrite E1, E2.
  - lia.
  - rewrite E3. replace (y + (m / 12 + 1)) with (y + m / 12 + 1) by lia.
    rewrite DayFromYear_step. change (11 + 1) with 12. unfold JS.monthStart. lia.
Qed.

(** [new Date(year, month + 1, 0)] is the last day of the month of
    [new Date(year, month, 1)]: its date is the length of that month. *)
Lemma last_day_of_month (y m : Z) :
  let L := JS.MakeDay y (m + 1) 0 in
  let len := JS.monthLength (JS.DaysInYear (y + m / 12) - 365) (m mod 12) in
  L = JS.MakeDay y m len /\
  JS.YearFromDay L = y + m / 12 /\ JS.MonthFromDay L = m mod 12 /\ JS.DateFromDay L = len.
Proof.
  intros L len.
  assert (EL : L = JS.MakeDay y m len).
  { subst L. replace 0 with (1 + -1) by lia. rewrite MakeDay_shift, MakeDay_next_month.
    replace len with (1 + (len - 1)) by lia. rewrite MakeDay_shift. subst len. lia. }
  split; [exact EL|]. rewrite EL, MakeDay_norm.
  pose proof (Z.mod_pos_bound m 12 ltac:(lia)) as Hm.
  apply MakeDay_inv; [lia|].
  pose proof (monthLength_bounds _ (m mod 12) (leap_cases (y + m / 12)) ltac:(lia)).
  subst len. lia.
Qed.

(** C4.  [nthWeekday] takes the first day of the month whose weekday is [w],
    found from the weekday of the 1st, and adds [(n - 1) * 7] days;
    [lastWeekday] starts from the last calendar day of the month and steps
    back 0..6 days to the nearest day whose weekday is [w].  In 2024 the 3rd
    Monday of January is January 15 and the last Monday of May is May 27. *)
Theorem nthWeekday_lastWeekday_correct (tza year month w n : Z) :
  0 <= w <= 6 ->
  let first := JS.newDate tza year month 1 in
  let last := JS.newDate tza year (month + 1) 0 in
  (exists k,
      0 <= k <= 6 /\ k = (w - JS.getDay tza first) mod 7 /\
      JS.getDay tza (addDays tza first k) = w /\
      JS.getMonth tza (addDays tza first k) = JS.getMonth tza first /\
      (forall j, 0 <= j < k -> JS.getDay tza (addDays tza first j) <> w) /\
      nthWeekday tza year month w n = addDays tza first (k + (n - 1) * 7)) /\
  (JS.getMonth tza last = JS.getMonth tza first /\
   JS.getFullYear tza last = JS.getFullYear tza first /\
   JS.getDate tza (addDays tza last 1) = 1 /\
   exists diff,
      0 <= diff <= 6 /\
      lastWeekday tza year month w = addDays tza last (- diff) /\
      JS.getDay tza (lastWeekday tza year month w) = w /\
      (forall j, 0 <= j < diff -> JS.getDay tza (addDays tza last (- j)) <> w)) /\
  nthWeekday tza 2024 0 1 3 = JS.newDate tza 2024 0 15 /\
  lastWeekday tza 2024 4 1 = JS.newDate tza 2024 4 27.
Proof.
  intros Hw first last.
  pose proof (Z.mod_pos_bound month 12 ltac:(lia)) as Hm.
  pose proof (leap_cases (year + month / 12)) as Hl.
  pose proof (monthLength_bounds _ (month mod 12) Hl ltac:(lia)) as Hlen.
  assert (Hfirst : forall j, 0 <= j <= 27 ->
            JS.getFullYear tza (addDays tza first j) = year + month / 12 /\
            JS.getMonth tza (addDays tza first j) = month mod 12 /\
            JS.getDate tza (addDays tza first j) = 1 + j).
  { intros j Hj. unfold JS.getFullYear, JS.getMonth, JS.getDate.
    rewrite localDay_addDays. subst first. rewrite localDay_newDate.
    rewrite <- MakeDay_shift, MakeDay_norm. apply MakeDay_inv; lia. }
  split; [|split; [|split]].
  - pose proof (getDay_range tza first) as Hf.
    exists ((w - JS.getDay tza first) mod 7).
    assert (Hk : JS.rem (w - JS.getDay tza first + 7) 7 = (w - JS.getDay tza first) mod 7).
    { unfold JS.rem. rewrite Z.rem_mod_nonneg by lia. Z.div_mod_to_equations. lia. }
    pose proof (Z.mod_pos_bound (w - JS.getDay tza first) 7 ltac:(lia)) as Hk7.
    split; [lia|]. split; [reflexivity|]. split; [|split; [|split]].
    + rewrite getDay_addDays. Z.div_mod_to_equations. lia.
    + destruct (Hfirst ((w - JS.getDay tza first) mod 7) ltac:(lia)) as [_ [E _]].
      destruct (Hfirst 0 ltac:(lia)) as [_ [E0 _]].
      rewrite E. rewrite addDays_eq in E0. replace (first + 0 * JS.msPerDay) with first in E0 by lia.
      symmetry. exact E0.
    + intros j Hj. rewrite getDay_addDays. Z.div_mod_to_equations. lia.
    + unfold nthWeekday. fold first. rewrite Hk. subst first.
      rewrite <- newDate_shift. f_equal. lia.
  - destruct (last_day_of_month year month) as [EL [EY [EM ED]]].
    destruct (Hfirst 0 ltac:(lia)) as [F1 [F2 _]].
    rewrite addDays_eq in F1, F2.
    replace (first + 0 * JS.msPerDay) with first in F1, F2 by lia.
    assert (LD : JS.localDay tza last = JS.MakeDay year (month + 1) 0)
      by (subst last; apply localDay_newDate).
    pose proof (getDay_range tza last) as Hg.
    assert (Hd : JS.rem (JS.getDay tza last - w + 7) 7 = (JS.getDay tza last - w) mod 7).
    { unfold JS.rem. rewrite Z.rem_mod_nonneg by lia. Z.div_mod_to_equations. lia. }
    pose proof (Z.mod_pos_bound (JS.getDay tza last - w) 7 ltac:(lia)) as Hd7.
    assert (Eback : forall k, JS.newDate tza year month (JS.getDate tza last - k)
                              = addDays tza last (- k)).
    { intros k. rewrite addDays_eq. unfold JS.getDate. rewrite LD, ED.
      subst last. unfold JS.newDate. rewrite EL.
      replace (JS.monthLength (JS.DaysInYear (year + month / 12) - 365) (month mod 12) - k)
        with (JS.monthLength (JS.DaysInYear (year + month / 12) - 365) (month mod 12) + - k)
        by lia.
      rewrite MakeDay_shift. lia. }
    assert (Elast : lastWeekday tza year month w
                    = addDays tza last (- ((JS.getDay tza last - w) mod 7))).
    { unfold lastWeekday. fold last. rewrite Hd. apply Eback. }
    repeat split.
    + unfold JS.getMonth at 1. rewrite LD, EM. symmetry. exact F2.
    + unfold JS.getFullYear at 1. rewrite LD, EY. symmetry. exact F1.
    + unfold JS.getDate. rewrite localDay_addDays, LD.
      rewrite <- MakeDay_shift. replace (0 + 1) with 1 by lia.
      rewrite MakeDay_norm.
      assert (M1 : 0 <= (month + 1) mod 12 <= 11)
        by (pose proof (Z.mod_pos_bound (month + 1) 12 ltac:(lia)); lia).
      pose proof (monthLength_bounds _ ((month + 1) mod 12)
                    (leap_cases (year + (month + 1) / 12)) M1).
      apply MakeDay_inv; lia.
    + exists ((JS.getDay tza last - w) mod 7).
      split; [lia|]. split; [exact Elast|]. split.
      * rewrite Elast, getDay_addDays. Z.div_mod_to_equations. lia.
      * intros j Hj. rewrite getDay_addDays. Z.div_mod_to_equations. lia.
  - unfold nthWeekday, JS.getDay. rewrite localDay_newDate. reflexivity.
  - unfold lastWeekday, JS.getDay, JS.getDate. rewrite !localDay_newDate. reflexivity.
Qed.

Lemma nthWeekday_lastWeekday_correct_witness :
  0 <= 1 <= 6 /\
  nthWeekday Sample.tzDenver 2024 0 1 3 = JS.newDate Sample.tzDenver 2024 0 15 /\
  lastWeekday Sample.tzDenver 2024 4 1 = JS.newDate Sample.tzDenver 2024 4 27.
Proof.
  split; [lia|].
  apply (nthWeekday_lastWeekday_correct Sample.tzDenver 2024 4 1 3). lia.
Defined.

(* ================================================================== *)
(** * The holidays of a year *)
(* ================================================================== *)

Lemma nthWeekday_localDay (tza y m w n : Z) :
  0 <= m <= 11 -> 0 <= w <= 6 ->
  exists k, 0 <= k <= 6 /\
    JS.localDay tza (nthWeekday tza y m w n)
    = JS.DayFromYear y + JS.monthStart (JS.DaysInYear y - 365) m + k + (n - 1) * 7.
Proof.
  intros Hm Hw. unfold nthWeekday. rewrite localDay_newDate, MakeDay_in_year by exact Hm.
  set (first := JS.newDate tza y m 1).
  pose proof (getDay_range tza first) as Hf.
  exists (JS.rem (w - JS.getDay tza first + 7) 7). split; [|lia].
  unfold JS.rem. rewrite Z.rem_mod_nonneg by lia.
  pose proof (Z.mod_pos_bound (w - JS.getDay tza first + 7) 7 ltac:(lia)). lia.
Qed.

Lemma lastWeekday_localDay (tza y m w : Z) :
  0 <= m <= 11 -> 0 <= w <= 6 ->
  exists k, 0 <= k <= 6 /\
    JS.localDay tza (lastWeekday tza y m w)
    = JS.DayFromYear y + JS.monthStart (JS.DaysInYear y - 365) (m + 1) - 1 - k.
Proof.
  intros Hm Hw. unfold lastWeekday. rewrite localDay_newDate, MakeDay_in_year by exact Hm.
  set (last := JS.newDate tza y (m + 1) 0).
  pose proof (getDay_range tza last) as Hg.
  destruct (last_day_of_month y m) as [_ [_ [_ ED]]].
  rewrite (Z.div_small m 12), (Z.mod_small m 12), Z.add_0_r in ED by lia.
  unfold JS.getDate. subst last. rewrite localDay_newDate, ED.
  exists (JS.rem (JS.WeekDayOfDay (JS.MakeDay y (m + 1) 0) - w + 7) 7).
  unfold JS.getDay in *. rewrite localDay_newDate in *.
  split.
  - unfold JS.rem. rewrite Z.rem_mod_nonneg by lia.
    pose proof (Z.mod_pos_bound (JS.WeekDayOfDay (JS.MakeDay y (m + 1) 0) - w + 7) 7 ltac:(lia)).
    lia.
  - unfold JS.monthLength. lia.
Qed.

(** The local day numbers of the fourteen holidays of year [y], in the order
    of the table, as offsets from January 1. *)
Lemma holiday_days (tza y : Z) :
  let l := JS.DaysInYear y - 365 in
  let b := JS.DayFromYear y in
  exists k1 k2 k3 k4 k5 k6 k7 k8 k9 k10,
    (0 <= k1 <= 6 /\ 0 <= k2 <= 6 /\ 0 <= k3 <= 6 /\ 0 <= k4 <= 6 /\ 0 <= k5 <= 6 /\
     0 <= k6 <= 6 /\ 0 <= k7 <= 6 /\ 0 <= k8 <= 6 /\ 0 <= k9 <= 6 /\ 0 <= k10 <= 6) /\
    map (fun p => JS.localDay tza (snd p)) (getUtahHolidayDates tza y)
    = [ b; b + 14 + k1; b + 45 + k2; b + 73 + l + k3; b + 150 + l - k4;
        b + 165 + l + k5; b + 127 + l + k6; b + 184 + l; b + 204 + l;
        b + 243 + l + k7; b + 287 + l + k8; b + 325 + l + k9;
        b + 357 + l; b + 359 + l ].
Proof.
  intros l b.
  destruct (nthWeekday_localDay tza y 0 1 3) as [k1 [B1 E1]]; [lia|lia|].
  destruct (nthWeekday_localDay tza y 1 1 3) as [k2 [B2 E2]]; [lia|lia|].
  destruct (nthWeekday_localDay tza y 2 1 3) as [k3 [B3 E3]]; [lia|lia|].
  destruct (lastWeekday_localDay tza y 4 1) as [k4 [B4 E4]]; [lia|lia|].
  destruct (nthWeekday_localDay tza y 5 0 3) as [k5 [B5 E5]]; [lia|lia|].
  destruct (nthWeekday_localDay tza y 4 0 2) as [k6 [B6 E6]]; [lia|lia|].
  destruct (nthWeekday_localDay tza y 8 1 1) as [k7 [B7 E7]]; [lia|lia|].
  destruct (nthWeekday_localDay tza y 9 4 3) as [k8 [B8 E8]]; [lia|lia|].
  destruct (nthWeekday_localDay tza y 10 4 4) as [k9 [B9 E9]]; [lia|lia|].
  exists k1, k2, k3, k4, k5, k6, k7, k8, k9, k9.
  split; [lia|].
  unfold getUtahHolidayDates. cbn [map snd].
  rewrite E1, E2, E3, E4, E5, E6, E7, E8, E9, !localDay_newDate.
  rewrite !MakeDay_in_year by lia. fold l b.
  change (4 + 1) with 5. unfold JS.monthStart.
  repeat (f_equal; try lia).
Qed.

Lemma holidays_NoDup (tza y : Z) :
  NoDup (map (fun p => JS.localDay tza (snd p)) (getUtahHolidayDates tza y)).
Proof.
  destruct (holiday_days tza y) as (k1 & k2 & k3 & k4 & k5 & k6 & k7 & k8 & k9 & k10 & B & E).
  rewrite E. pose proof (leap_cases y) as Hl.
  repeat (constructor;
          [ let H := fresh "H" in
            intros H; cbn [In] in H; repeat destruct H as [H|H]; lia | ]).
  constructor.
Qed.

(** No holiday of year [y] leaves the year, and none falls on its 359th or
    360th day (December 25 of a common or a leap year). *)
Lemma holiday_day_in_year (tza y : Z) (p : string * JS.Date) :
  In p (getUtahHolidayDates tza y) ->
  JS.DayFromYear y <= JS.localDay tza (snd p) < JS.DayFromYear (y + 1) /\
  JS.localDay tza (snd p) <> JS.DayFromYear y + 358 + (JS.DaysInYear y - 365).
Proof.
  intros H. apply (in_map (fun p => JS.localDay tza (snd p))) in H.
  destruct (holiday_days tza y) as (k1 & k2 & k3 & k4 & k5 & k6 & k7 & k8 & k9 & k10 & B & E).
  rewrite E in H. pose proof (leap_cases y) as Hl. rewrite DayFromYear_step.
  cbn [In] in H. repeat destruct H as [H|H]; lia.
Qed.

Lemma assignHolidays_cons (tza : Z) (cfg : ScheduleConfig) (d : JS.Date) (year : Z)
      (name : string) (hd : JS.Date) (rest : list (string * JS.Date)) :
  assignHolidays tza cfg d year ((name, hd) :: rest)
  = if JS.localDay tza d =? JS.localDay tza hd
    then mkAssignment name hd (holidayParent cfg name year)
         :: assignHolidays tza cfg d year rest
    else assignHolidays tza cfg d year rest.
Proof.
  cbn [assignHolidays]. rewrite diffDays_eq.
  destruct (Z.eqb_spec (JS.localDay tza d - JS.localDay tza hd) 0) as [E|E];
    destruct (Z.eqb_spec (JS.localDay tza d) (JS.localDay tza hd)) as [E'|E'];
    try reflexivity; exfalso; lia.
Qed.

Lemma assignHolidays_none (tza : Z) (cfg : ScheduleConfig) (d : JS.Date) (year : Z)
      (entries : list (string * JS.Date)) :
  (forall p, In p entries -> JS.localDay tza (snd p) <> JS.localDay tza d) ->
  assignHolidays tza cfg d year entries = [].
Proof.
  induction entries as [|[name hd] rest IH]; intros H; [reflexivity|].
  rewrite assignHolidays_cons.
  destruct (Z.eqb_spec (JS.localDay tza d) (JS.localDay tza hd)) as [E|E].
  - exfalso. apply (H (name, hd)); [left; reflexivity|]. symmetry. exact E.
  - apply IH. intros p Hp. apply H. right. exact Hp.
Qed.

Lemma assignHolidays_nil_inv (tza : Z) (cfg : ScheduleConfig) (d : JS.Date) (year : Z)
      (entries : list (string * JS.Date)) :
  assignHolidays tza cfg d year entries = [] ->
  forall p, In p entries -> JS.localDay tza (snd p) <> JS.localDay tza d.
Proof.
  induction entries as [|[name hd] rest IH]; intros H p Hp; [destruct Hp|].
  rewrite assignHolidays_cons in H.
  destruct (Z.eqb_spec (JS.localDay tza d) (JS.localDay tza hd)) as [E|E];
    [discriminate H|].
  destruct Hp as [<-|Hp]; [intros E'; apply E; symmetry; exact E'|].
  apply IH; assumption.
Qed.

(** On a list of holidays that fall on distinct days, the holiday on the day
    of [d] is the only assignment. *)
Lemma assignHolidays_unique (tza : Z) (cfg : ScheduleConfig) (d : JS.Date) (year : Z)
      (entries : list (string * JS.Date)) (name : string) (hd : JS.Date) :
  NoDup (map (fun p => JS.localDay tza (snd p)) entries) ->
  In (name, hd) entries ->
  JS.localDay tza hd = JS.localDay tza d ->
  assignHolidays tza cfg d year entries
  = [mkAssignment name hd (holidayParent cfg name year)].
Proof.
  induction entries as [|[name' hd'] rest IH]; intros ND HIn E; [destruct HIn|].
  rewrite assignHolidays_cons.
  assert (Hx : ~ In (JS.localDay tza hd') (map (fun p => JS.localDay tza (snd p)) rest))
    by (inversion ND; assumption).
  assert (ND' : NoDup (map (fun p => JS.localDay tza (snd p)) rest))
    by (inversion ND; assumption).
  destruct HIn as [Heq|HIn].
  - injection Heq as -> ->. rewrite E, Z.eqb_refl. f_equal.
    apply assignHolidays_none.
    intros p Hp Ep. apply Hx. rewrite E, <- Ep.
    apply (in_map (fun p => JS.localDay tza (snd p))). exact Hp.
  - destruct (Z.eqb_spec (JS.localDay tza d) (JS.localDay tza hd')) as [Ed|Ed].
    + exfalso. apply Hx. rewrite <- Ed, <- E.
      apply (in_map (fun p => JS.localDay tza (snd p)) rest (name, hd)). exact HIn.
    + apply IH; assumption.
Qed.

(** The holidays found for a date: the one holiday of its year that falls on
    its calendar day, if there is one. *)
Lemma getHolidayAssignmentsForDate_on (tza : Z) (cfg : ScheduleConfig) (d : JS.Date)
      (name : string) :
  holidayOn tza d name ->
  exists hd,
    getHolidayAssignmentsForDate tza cfg (startOfDay tza d)
    = [mkAssignment name hd (holidayParent cfg name (JS.getFullYear tza d))].
Proof.
  intros [hd [HIn E]]. exists hd. unfold getHolidayAssignmentsForDate.
  rewrite getFullYear_startOfDay.
  apply assignHolidays_unique;
    [apply holidays_NoDup | exact HIn | rewrite localDay_startOfDay; exact E].
Qed.

Lemma getHolidayAssignmentsForDate_off (tza : Z) (cfg : ScheduleConfig) (d : JS.Date) :
  (forall name, ~ holidayOn tza d name) ->
  getHolidayAssignmentsForDate tza cfg (startOfDay tza d) = [].
Proof.
  intros H. unfold getHolidayAssignmentsForDate. rewrite getFullYear_startOfDay.
  apply assignHolidays_none. intros [name hd] Hp E. apply (H name).
  exists hd. split; [exact Hp|]. rewrite localDay_startOfDay in E. exact E.
Qed.

(* ================================================================== *)
(** * Custody status (C1, C10) *)
(* ================================================================== *)

Lemma isUserWeekend_startOfDay (tza : Z) (cfg : ScheduleConfig) (d : JS.Date) :
  isUserWeekend tza cfg (startOfDay tza d) = isUserWeekend tza cfg d.
Proof. rewrite !isUserWeekend_days, localDay_startOfDay. reflexivity. Qed.

(** The recurring rules on a configuration whose weekday names are valid. *)
Lemma recurringCustody_valid (tza : Z) (cfg : ScheduleConfig) (d : JS.Date)
      (pw dw op od : Z) :
  configWeekdays cfg pw dw op od ->
  recurringCustody tza cfg d =
  Ok (if isDayInRange (JS.getDay tza d) pw dw then
        if isUserWeekend tza cfg d then user else coparent
      else if (JS.getDay tza d =? op) || (JS.getDay tza d =? od) then
        wo_parent (weekdayOvernight cfg)
      else otherParty (wo_parent (weekdayOvernight cfg))).
Proof.
  intros (H1 & H2 & H3 & H4). unfold recurringCustody.
  rewrite H1, H2. cbn [bind].
  destruct (isDayInRange (JS.getDay tza d) pw dw); [reflexivity|].
  rewrite H3, H4. cbn [bind].
  destruct ((JS.getDay tza d =? op) || (JS.getDay tza d =? od)); reflexivity.
Qed.

(** C1.  On a valid configuration [getCustodyStatus] applies its rules in
    strict priority on the calendar day of [d]: a holiday of [d]'s year that
    falls on [d] gives that holiday's party; otherwise a weekday inside the
    weekend range gives the alternating-weekend party; otherwise the overnight
    pickup or dropoff weekday gives the overnight party; otherwise the party
    opposite the overnight party.  A weekend-range day that is a holiday of
    the opposite party gets the holiday's party. *)
Theorem getCustodyStatus_priority (tza : Z) (cfg : ScheduleConfig) (d : JS.Date)
        (pw dw op od : Z) :
  configWeekdays cfg pw dw op od ->
  let w := JS.getDay tza d in
  let weekendParty := if isUserWeekend tza cfg d then user else coparent in
  let overnightParty := wo_parent (weekdayOvernight cfg) in
  (forall name,
      holidayOn tza d name ->
      getCustodyStatus tza cfg d = Ok (holidayParent cfg name (JS.getFullYear tza d))) /\
  ((forall name, ~ holidayOn tza d name) ->
   (inCyclicRange w pw dw -> getCustodyStatus tza cfg d = Ok weekendParty) /\
   (~ inCyclicRange w pw dw -> w = op \/ w = od ->
    getCustodyStatus tza cfg d = Ok overnightParty) /\
   (~ inCyclicRange w pw dw -> w <> op -> w <> od ->
    getCustodyStatus tza cfg d = Ok (otherParty overnightParty))) /\
  (forall name,
      holidayOn tza d name -> inCyclicRange w pw dw ->
      holidayParent cfg name (JS.getFullYear tza d) = otherParty weekendParty ->
      getCustodyStatus tza cfg d = Ok (holidayParent cfg name (JS.getFullYear tza d)) /\
      getCustodyStatus tza cfg d <> Ok weekendParty).
Proof.
  intros V w weekendParty overnightParty.
  assert (Hhol : forall name, holidayOn tza d name ->
            getCustodyStatus tza cfg d = Ok (holidayParent cfg name (JS.getFullYear tza d))).
  { intros name H. unfold getCustodyStatus.
    destruct (getHolidayAssignmentsForDate_on tza cfg d name H) as [hd ->]. reflexivity. }
  split; [exact Hhol|]. split.
  - intros Hno. unfold getCustodyStatus.
    rewrite (getHolidayAssignmentsForDate_off tza cfg d Hno).
    rewrite (recurringCustody_valid tza cfg _ pw dw op od V).
    rewrite getDay_startOfDay, isUserWeekend_startOfDay. fold w.
    pose proof (isDayInRange_iff w pw dw) as HR.
    split; [|split].
    + intros Hin. apply HR in Hin. rewrite Hin. reflexivity.
    + intros Hout Hw.
      destruct (isDayInRange w pw dw); [exfalso; apply Hout, HR; reflexivity|].
      replace ((w =? op) || (w =? od)) with true; [reflexivity|].
      symmetry. apply orb_true_iff. rewrite !Z.eqb_eq. exact Hw.
    + intros Hout H1 H2.
      destruct (isDayInRange w pw dw); [exfalso; apply Hout, HR; reflexivity|].
      replace ((w =? op) || (w =? od)) with false; [reflexivity|].
      symmetry. apply orb_false_iff. rewrite !Z.eqb_neq. split; assumption.
  - intros name H _ Hopp. split; [apply Hhol; exact H|].
    rewrite (Hhol name H), Hopp. destruct weekendParty; discriminate.
Qed.

(** Friday 2025-07-04 in Utah: a day of the user's weekend and the
    coparent's July 4th. *)
Lemma getCustodyStatus_priority_witness :
  configWeekdays Sample.cfg 5 0 3 4 /\
  getCustodyStatus Sample.tzDenver Sample.cfg (Sample.utah 2025 7 4) = Ok coparent /\
  getCustodyStatus Sample.tzDenver Sample.cfg (Sample.utah 2025 7 4)
  <> Ok (if isUserWeekend Sample.tzDenver Sample.cfg (Sample.utah 2025 7 4)
         then user else coparent).
Proof.
  assert (V : configWeekdays Sample.cfg 5 0 3 4) by (repeat split; reflexivity).
  split; [exact V|].
  apply (getCustodyStatus_priority Sample.tzDenver Sample.cfg (Sample.utah 2025 7 4)
           5 0 3 4 V) with (name := "July 4th").
  - exists (JS.newDate Sample.tzDenver 2025 6 4). split; [|reflexivity].
    vm_compute. tauto.
  - vm_compute. right. split; [reflexivity|]. left. discriminate.
  - reflexivity.
Defined.

Lemma december_25_day (d : Z) :
  JS.MonthFromDay d = 11 -> JS.DateFromDay d = 25 ->
  d = JS.DayFromYear (JS.YearFromDay d) + 358 + (JS.DaysInYear (JS.YearFromDay d) - 365).
Proof.
  intros Hm Hd. pose proof (MakeDay_civil d) as E. rewrite Hm, Hd in E.
  rewrite MakeDay_in_year in E by lia. unfold JS.monthStart in E. lia.
Qed.

Lemma fixed_holiday (tza year m dt : Z) :
  0 <= m <= 11 -> 1 <= dt <= JS.monthLength (JS.DaysInYear year - 365) m ->
  JS.getFullYear tza (JS.newDate tza year m dt) = year /\
  JS.getMonth tza (JS.newDate tza year m dt) = m /\
  JS.getDate tza (JS.newDate tza year m dt) = dt.
Proof.
  intros Hm Hd. unfold JS.getFullYear, JS.getMonth, JS.getDate.
  rewrite localDay_newDate. apply MakeDay_inv; assumption.
Qed.

(** C10.  For every year the holidays computed by [getUtahHolidayDates]
    include December 24 (Christmas 1st half) and December 26 (Christmas 2nd
    half), and none of them falls on a December 25; so on every December 25,
    for every configuration, no holiday assignment is found and
    [getCustodyStatus] is decided by the recurring rules (weekend range,
    weekday overnight, default). *)
Theorem december_25_is_no_holiday (tza year : Z) :
  (exists h, In ("Christmas 1st half", h) (getUtahHolidayDates tza year) /\
             JS.getFullYear tza h = year /\ JS.getMonth tza h = 11 /\ JS.getDate tza h = 24) /\
  (exists h, In ("Christmas 2nd half", h) (getUtahHolidayDates tza year) /\
             JS.getFullYear tza h = year /\ JS.getMonth tza h = 11 /\ JS.getDate tza h = 26) /\
  (forall name h, In (name, h) (getUtahHolidayDates tza year) ->
                  ~ (JS.getMonth tza h = 11 /\ JS.getDate tza h = 25)) /\
  (forall (cfg : ScheduleConfig) (d : JS.Date),
      JS.getMonth tza d = 11 -> JS.getDate tza d = 25 ->
      getHolidayAssignmentsForDate tza cfg (startOfDay tza d) = [] /\
      getCustodyStatus tza cfg d = recurringCustody tza cfg (startOfDay tza d)).
Proof.
  assert (Hlen : 24 <= JS.monthLength (JS.DaysInYear year - 365) 11
                 /\ 26 <= JS.monthLength (JS.DaysInYear year - 365) 11).
  { pose proof (monthLength_bounds _ 11 (leap_cases year) ltac:(lia)). lia. }
  split; [|split; [|split]].
  - exists (JS.newDate tza year 11 24). split.
    + unfold getUtahHolidayDates. cbn [In]. tauto.
    + apply fixed_holiday; lia.
  - exists (JS.newDate tza year 11 26). split.
    + unfold getUtahHolidayDates. cbn [In]. tauto.
    + apply fixed_holiday; lia.
  - intros name h HIn [Hm Hd].
    destruct (holiday_day_in_year tza year (name, h) HIn) as [Hy Hne].
    cbn [snd] in Hy, Hne. apply Hne.
    pose proof (december_25_day (JS.localDay tza h) Hm Hd) as E.
    rewrite (YearFromDay_unique year _ Hy) in E. exact E.
  - intros cfg d Hm Hd.
    assert (Hnil : getHolidayAssignmentsForDate tza cfg (startOfDay tza d) = []).
    { unfold getHolidayAssignmentsForDate. rewrite getFullYear_startOfDay.
      apply assignHolidays_none. intros p Hp E.
      destruct (holiday_day_in_year tza _ p Hp) as [_ Hne]. apply Hne.
      rewrite E, localDay_startOfDay.
      exact (december_25_day (JS.localDay tza d) Hm Hd). }
    split; [exact Hnil|]. unfold getCustodyStatus. rewrite Hnil. reflexivity.
Qed.

Lemma december_25_is_no_holiday_witness :
  getHolidayAssignmentsForDate Sample.tzDenver Sample.cfg
    (startOfDay Sample.tzDenver (Sample.utah 2024 12 25)) = [] /\
  getCustodyStatus Sample.tzDenver Sample.cfg (Sample.utah 2024 12 25)
  = recurringCustody Sample.tzDenver Sample.cfg
      (startOfDay Sample.tzDenver (Sample.utah 2024 12 25)).
Proof.
  apply (december_25_is_no_holiday Sample.tzDenver 2024); reflexivity.
Defined.

(* ================================================================== *)
(** * Next transition (C6) *)
(* ================================================================== *)

Lemma Party_eqb_eq (a b : Party) : Party_eqb a b = true <-> a = b.
Proof. destruct a, b; cbn; split; intros H; try reflexivity; discriminate H. Qed.

Lemma Party_eqb_neq (a b : Party) : Party_eqb a b = false <-> a <> b.
Proof. destruct a, b; cbn; split; intros H; try reflexivity; try discriminate H; congruence. Qed.

Lemma dayIndex_range (name : string) (i : Z) : dayIndex name = Ok i -> 0 <= i <= 6.
Proof.
  unfold dayIndex, indexOf, DAYS. cbn [indexOfFrom].
  repeat match goal with
         | |- context [String.eqb ?a ?b] => destruct (String.eqb a b)
         end; cbn; intros H; inversion H; lia.
Qed.

(** On a configuration with valid weekday names every query returns a party. *)
Lemma getCustodyStatus_total (tza : Z) (cfg : ScheduleConfig) (pw dw op od : Z) :
  configWeekdays cfg pw dw op od ->
  forall d, exists p, getCustodyStatus tza cfg d = Ok p.
Proof.
  intros V d. unfold getCustodyStatus.
  destruct (getHolidayAssignmentsForDate tza cfg (startOfDay tza d)) as [|h rest].
  - rewrite (recurringCustody_valid tza cfg _ pw dw op od V). eexists. reflexivity.
  - eexists. reflexivity.
Qed.

(** The loop of [getNextTransition] from [i], [fuel] iterations long: it stops
    at the first day whose status differs from [current], or runs out. *)
Lemma scanTransition_spec (tza : Z) (env : Env) (cfg : ScheduleConfig)
      (date : JS.Date) (current : Party) :
  (forall d, exists p, getCustodyStatus tza cfg d = Ok p) ->
  forall (fuel : nat) (i : Z),
    (exists j s,
        i <= j < i + Z.of_nat fuel /\
        getCustodyStatus tza cfg (addDays tza date j) = Ok s /\ s <> current /\
        (forall j', i <= j' < j ->
                    getCustodyStatus tza cfg (addDays tza date j') = Ok current) /\
        scanTransition tza env cfg date current fuel i
        = Ok (Some (mkTransition (addDays tza date j)
                      match s with
                      | user => "Children come to you ("
                                ++ formatDate tza (addDays tza date j) ++ ")"
                      | coparent => "Children go to "
                                    ++ orDefault (COPARENT_NAME env) "co-parent"
                                    ++ " (" ++ formatDate tza (addDays tza date j) ++ ")"
                      end)))
    \/ ((forall j, i <= j < i + Z.of_nat fuel ->
                   getCustodyStatus tza cfg (addDays tza date j) = Ok current) /\
        scanTransition tza env cfg date current fuel i = Ok None).
Proof.
  intros T fuel. induction fuel as [|fuel IH]; intros i.
  - right. split; [intros j Hj; lia|reflexivity].
  - cbn [scanTransition]. destruct (T (addDays tza date i)) as [s Hs].
    rewrite Hs. cbn [bind].
    destruct (Party_eqb s current) eqn:E; cbn [negb].
    + apply Party_eqb_eq in E. subst s.
      destruct (IH (i + 1)) as [(j & s & Hj & Hjs & Hne & Hbefore & Hscan)|[Hall Hscan]].
      * left. exists j, s. split; [lia|]. split; [exact Hjs|]. split; [exact Hne|].
        split; [|exact Hscan].
        intros j' Hj'. destruct (Z.eq_dec j' i) as [->|Hd]; [exact Hs|].
        apply Hbefore. lia.
      * right. split; [|exact Hscan].
        intros j Hj. destruct (Z.eq_dec j i) as [->|Hd]; [exact Hs|].
        apply Hall. lia.
    + apply Party_eqb_neq in E. left. exists i, s.
      split; [lia|]. split; [exact Hs|]. split; [exact E|].
      split; [intros j' Hj'; lia|]. destruct s; reflexivity.
Qed.

(** C6.  On a valid configuration [getNextTransition] returns the first of
    the 14 days after [d] whose custody status differs from that of [d], with a
    description naming the party that gains the children; when the 14 days all
    have the status of [d] it returns the next day after [d] whose weekday is
    the weekend pickup weekday, labelled as the next weekend.  The returned
    date is strictly after [d], and outside the fallback its status differs
    from the status of [d]. *)
Theorem getNextTransition_correct (tza : Z) (env : Env) (cfg : ScheduleConfig)
        (d : JS.Date) (pw dw op od : Z) :
  configWeekdays cfg pw dw op od ->
  exists current t,
    getCustodyStatus tza cfg d = Ok current /\
    getNextTransition tza env cfg d = Ok t /\
    JS.getTime d < JS.getTime (ct_date t) /\
    JS.localDay tza d < JS.localDay tza (ct_date t) /\
    ((exists i s,
         1 <= i <= 14 /\ ct_date t = addDays tza d i /\
         getCustodyStatus tza cfg (ct_date t) = Ok s /\ s <> current /\
         (forall j, 1 <= j < i ->
                    getCustodyStatus tza cfg (addDays tza d j) = Ok current) /\
         ct_description t =
         match s with
         | user => "Children come to you (" ++ formatDate tza (ct_date t) ++ ")"
         | coparent => "Children go to " ++ orDefault (COPARENT_NAME env) "co-parent"
                       ++ " (" ++ formatDate tza (ct_date t) ++ ")"
         end)
     \/
     ((forall j, 1 <= j <= 14 ->
                 getCustodyStatus tza cfg (addDays tza d j) = Ok current) /\
      exists k,
        1 <= k <= 7 /\ ct_date t = addDays tza d k /\
        JS.getDay tza (ct_date t) = pw /\
        (forall j, 1 <= j < k -> JS.getDay tza (addDays tza d j) <> pw) /\
        ct_description t = "Next weekend: " ++ formatDate tza (ct_date t))).
Proof.
  intros V. pose proof (getCustodyStatus_total tza cfg pw dw op od V) as T.
  destruct (T d) as [current Hc]. exists current.
  unfold getNextTransition. rewrite Hc. cbn [bind].
  assert (Hafter : forall i, 1 <= i ->
            JS.getTime d < JS.getTime (addDays tza d i) /\
            JS.localDay tza d < JS.localDay tza (addDays tza d i)).
  { intros i Hi. rewrite localDay_addDays, addDays_eq. unfold JS.getTime, JS.msPerDay. lia. }
  destruct (scanTransition_spec tza env cfg d current T 14 1)
    as [(j & s & Hj & Hjs & Hne & Hbefore & Hscan)|[Hall Hscan]];
    rewrite Hscan; cbn [bind].
  - eexists. split; [reflexivity|]. split; [reflexivity|]. cbn [ct_date ct_description].
    destruct (Hafter j ltac:(lia)) as [A1 A2].
    split; [exact A1|]. split; [exact A2|].
    left. exists j, s. split; [lia|]. split; [reflexivity|]. split; [exact Hjs|].
    split; [exact Hne|]. split; [exact Hbefore|]. reflexivity.
  - destruct V as (Hpw & _). rewrite Hpw. cbn [bind].
    pose proof (dayIndex_range _ _ Hpw) as Rpw.
    pose proof (getDay_range tza d) as Rd.
    set (r := JS.rem (pw - JS.getDay tza d + 7) 7).
    assert (Hr : r = (pw - JS.getDay tza d) mod 7).
    { subst r. unfold JS.rem. rewrite Z.rem_mod_nonneg by lia.
      Z.div_mod_to_equations. lia. }
    pose proof (Z.mod_pos_bound (pw - JS.getDay tza d) 7 ltac:(lia)) as Rr.
    set (k := if r =? 0 then 7 else r).
    assert (Hk : 1 <= k <= 7 /\ (k = 7 /\ r = 0 \/ k = r /\ r <> 0)).
    { subst k. destruct (Z.eqb_spec r 0); lia. }
    eexists. split; [reflexivity|]. split; [reflexivity|]. cbn [ct_date ct_description].
    destruct (Hafter k ltac:(lia)) as [A1 A2].
    split; [exact A1|]. split; [exact A2|].
    right. split; [intros j Hj; apply Hall; lia|].
    exists k. split; [lia|]. split; [reflexivity|]. split; [|split; [|reflexivity]].
    + rewrite getDay_addDays. Z.div_mod_to_equations. lia.
    + intros j Hj. rewrite getDay_addDays. Z.div_mod_to_equations. lia.
Qed.

Lemma getNextTransition_correct_witness :
  configWeekdays Sample.cfg 5 0 3 4 /\
  exists current t,
    getCustodyStatus Sample.tzDenver Sample.cfg (Sample.utah 2024 1 5) = Ok current /\
    getNextTransition Sample.tzDenver Sample.noEnv Sample.cfg (Sample.utah 2024 1 5) = Ok t /\
    JS.getTime (Sample.utah 2024 1 5) < JS.getTime (ct_date t).
Proof.
  assert (V : configWeekdays Sample.cfg 5 0 3 4) by (repeat split; reflexivity).
  split; [exact V|].
  destruct (getNextTransition_correct Sample.tzDenver Sample.noEnv Sample.cfg
              (Sample.utah 2024 1 5) 5 0 3 4 V) as (current & t & H1 & H2 & H3 & _).
  exists current, t. repeat split; assumption.
Defined.

(* ================================================================== *)
(** * Week summary (C7) *)
(* ================================================================== *)

Lemma weekLine_eq (tza : Z) (env : Env) (cfg : ScheduleConfig) (d : JS.Date)
      (status : Z -> Party) :
  (forall i, getCustodyStatus tza cfg (addDays tza d i) = Ok (status i)) ->
  forall i,
    weekLine tza env cfg d i
    = Ok (shortDayName (JS.getDay tza (addDays tza d i)) ++ ": "
          ++ match status i with
             | user => orDefault (USER_NAME env) "You"
             | coparent => orDefault (COPARENT_NAME env) "Co-parent"
             end
          ++ noteOf (status i) (status (i - 1)) (status (i + 1))).
Proof.
  intros H i. unfold weekLine. rewrite !H. cbn [bind]. reflexivity.
Qed.

(** C7, as amended.  On a valid configuration [getWeekSummary] produces 7
    lines, one per day from [d] on, each with the weekday and the name of the
    party of that day.  A line is annotated [(pickup)] when its party differs
    from that of the previous day; otherwise [(drop-off)] when its party
    differs from that of the next day; otherwise it has no annotation.  A line
    carries at most one annotation: a single day between two days of the other
    party is annotated [(pickup)] only. *)
Theorem getWeekSummary_lines (tza : Z) (env : Env) (cfg : ScheduleConfig)
        (d : JS.Date) (pw dw op od : Z) :
  configWeekdays cfg pw dw op od ->
  exists status : Z -> Party,
    (forall i, getCustodyStatus tza cfg (addDays tza d i) = Ok (status i)) /\
    let line := fun i =>
      shortDayName (JS.getDay tza (addDays tza d i)) ++ ": "
      ++ match status i with
         | user => orDefault (USER_NAME env) "You"
         | coparent => orDefault (COPARENT_NAME env) "Co-parent"
         end
      ++ noteOf (status i) (status (i - 1)) (status (i + 1)) in
    weekLines tza env cfg d 7 0 = Ok (map line [0; 1; 2; 3; 4; 5; 6]) /\
    getWeekSummary tza env cfg d
    = Ok (join (String "010" "") (map line [0; 1; 2; 3; 4; 5; 6])) /\
    (forall i, status i <> status (i - 1) ->
               noteOf (status i) (status (i - 1)) (status (i + 1)) = " (pickup)") /\
    (forall i, status i = status (i - 1) -> status i <> status (i + 1) ->
               noteOf (status i) (status (i - 1)) (status (i + 1)) = " (drop-off)") /\
    (forall i, status i = status (i - 1) -> status i = status (i + 1) ->
               noteOf (status i) (status (i - 1)) (status (i + 1)) = "").
Proof.
  intros V. pose proof (getCustodyStatus_total tza cfg pw dw op od V) as T.
  exists (fun i => match getCustodyStatus tza cfg (addDays tza d i) with
                   | Ok p => p
                   | Throw _ => coparent
                   end).
  assert (H : forall i, getCustodyStatus tza cfg (addDays tza d i)
                        = Ok match getCustodyStatus tza cfg (addDays tza d i) with
                             | Ok p => p
                             | Throw _ => coparent
                             end).
  { intros i. destruct (T (addDays tza d i)) as [p ->]. reflexivity. }
  split; [exact H|]. intros line.
  assert (L : weekLines tza env cfg d 7 0 = Ok (map line [0; 1; 2; 3; 4; 5; 6])).
  { cbn [weekLines]. rewrite !(weekLine_eq tza env cfg d _ H). cbn [bind]. reflexivity. }
  split; [exact L|]. split; [unfold getWeekSummary; rewrite L; reflexivity|].
  unfold noteOf. split; [|split].
  - intros i Hi. apply Party_eqb_neq in Hi. rewrite Hi. reflexivity.
  - intros i H1 H2. apply Party_eqb_eq in H1. apply Party_eqb_neq in H2.
    rewrite H1, H2. reflexivity.
  - intros i H1 H2. apply Party_eqb_eq in H1, H2. rewrite H1, H2. reflexivity.
Qed.

Lemma getWeekSummary_lines_witness :
  configWeekdays Sample.cfg 5 0 3 4 /\
  exists lines,
    weekLines Sample.tzDenver Sample.noEnv Sample.cfg (Sample.utah 2024 1 5) 7 0 = Ok lines /\
    List.length lines = 7%nat.
Proof.
  assert (V : configWeekdays Sample.cfg 5 0 3 4) by (repeat split; reflexivity).
  split; [exact V|].
  destruct (getWeekSummary_lines Sample.tzDenver Sample.noEnv Sample.cfg
              (Sample.utah 2024 1 5) 5 0 3 4 V) as (status & _ & L & _).
  eexists. split; [exact L|reflexivity].
Defined.

(** Wednesday 2024-01-10 under [Sample.cfgOneDay]: the user's single day
    between two days of the coparent, and its line carries [(pickup)] alone. *)
Lemma sandwiched_day_has_one_note :
  getCustodyStatus Sample.tzDenver Sample.cfgOneDay (Sample.utah 2024 1 9) = Ok coparent /\
  getCustodyStatus Sample.tzDenver Sample.cfgOneDay (Sample.utah 2024 1 10) = Ok user /\
  getCustodyStatus Sample.tzDenver Sample.cfgOneDay (Sample.utah 2024 1 11) = Ok coparent /\
  weekLine Sample.tzDenver Sample.noEnv Sample.cfgOneDay (Sample.utah 2024 1 9) 1
  = Ok "Wed: You (pickup)".
Proof. vm_compute. repeat split; reflexivity. Qed.

(* ================================================================== *)
(** * Invalid weekday names (C8) *)
(* ================================================================== *)

Lemma getCustodyStatus_holiday (tza : Z) (cfg : ScheduleConfig) (d : JS.Date)
      (name : string) :
  holidayOn tza d name ->
  getCustodyStatus tza cfg d = Ok (holidayParent cfg name (JS.getFullYear tza d)).
Proof.
  intros H. unfold getCustodyStatus.
  destruct (getHolidayAssignmentsForDate_on tza cfg d name H) as [hd ->]. reflexivity.
Qed.

(** C8, as amended.  Loading performs no weekday validation: [loadConfig]
    returns whatever configuration the file holds and never raises an
    invalid-weekday error.  An unrecognised weekday string is reported by
    [dayIndex] from inside a custody query, when the rule that reads it is
    reached: on a day without holiday an unrecognised weekend pickup or
    dropoff day makes [getCustodyStatus] fail, an unrecognised overnight day
    makes it fail on the days outside the weekend range, and on a holiday the
    query returns the holiday's party whatever the weekday strings are. *)
Theorem invalid_weekday_is_reported_by_queries :
  (forall (st : Store.State) (name : string),
      fst (Store.loadConfig st) <> Throw (InvalidDayName name)) /\
  (forall (fs : Store.FileSystem) (cfg : ScheduleConfig),
      Store.schedule_json fs = Some cfg ->
      Store.loadConfig (Store.initial fs) = (Ok cfg, Store.mkState fs (Some cfg) None)) /\
  (forall (tza : Z) (st : Store.State) (cfg : ScheduleConfig) (d : JS.Date),
      Store.config st = Some cfg ->
      Store.getCustodyStatus tza d st = (getCustodyStatus tza cfg d, st)) /\
  (forall name, indexOf DAYS (toLowerCase name) = -1 ->
                dayIndex name = Throw (InvalidDayName name)) /\
  (forall (tza : Z) (cfg : ScheduleConfig) (d : JS.Date),
      (forall name, ~ holidayOn tza d name) ->
      let w := JS.getDay tza d in
      (forall e, dayIndex (aw_pickupDay (alternatingWeekends cfg)) = Throw e ->
                 getCustodyStatus tza cfg d = Throw e) /\
      (forall pw e, dayIndex (aw_pickupDay (alternatingWeekends cfg)) = Ok pw ->
                    dayIndex (aw_dropoffDay (alternatingWeekends cfg)) = Throw e ->
                    getCustodyStatus tza cfg d = Throw e) /\
      (forall pw dw,
          dayIndex (aw_pickupDay (alternatingWeekends cfg)) = Ok pw ->
          dayIndex (aw_dropoffDay (alternatingWeekends cfg)) = Ok dw ->
          (isDayInRange w pw dw = true ->
           getCustodyStatus tza cfg d
           = Ok (if isUserWeekend tza cfg d then user else coparent)) /\
          (isDayInRange w pw dw = false ->
           (forall e, dayIndex (wo_pickupDay (weekdayOvernight cfg)) = Throw e ->
                      getCustodyStatus tza cfg d = Throw e) /\
           (forall op e, dayIndex (wo_pickupDay (weekdayOvernight cfg)) = Ok op ->
                         dayIndex (wo_dropoffDay (weekdayOvernight cfg)) = Throw e ->
                         getCustodyStatus tza cfg d = Throw e)))) /\
  (forall (tza : Z) (cfg : ScheduleConfig) (d : JS.Date) (name : string),
      holidayOn tza d name ->
      getCustodyStatus tza cfg d = Ok (holidayParent cfg name (JS.getFullYear tza d))).
Proof.
  split; [|split; [|split; [|split; [|split]]]].
  - intros st name. unfold Store.loadConfig.
    destruct (Store.config st); [cbn; discriminate|].
    destruct (Store.schedule_json (Store.files st)); cbn; discriminate.
  - intros fs cfg H. unfold Store.loadConfig, Store.initial. cbn. rewrite H. reflexivity.
  - intros tza st cfg d H. unfold Store.getCustodyStatus, Store.bindM, Store.loadConfig.
    rewrite H. reflexivity.
  - intros name H. unfold dayIndex. rewrite H. reflexivity.
  - intros tza cfg d Hno w. unfold getCustodyStatus.
    rewrite (getHolidayAssignmentsForDate_off tza cfg d Hno).
    unfold recurringCustody. rewrite getDay_startOfDay, isUserWeekend_startOfDay. fold w.
    split; [|split].
    + intros e H. rewrite H. reflexivity.
    + intros pw e H1 H2. rewrite H1, H2. reflexivity.
    + intros pw dw H1 H2. rewrite H1, H2. cbn [bind]. split.
      * intros R. rewrite R. reflexivity.
      * intros R. rewrite R. split.
        -- intros e H. rewrite H. reflexivity.
        -- intros op e H3 H4. rewrite H3, H4. reflexivity.
  - intros tza cfg d name H. apply getCustodyStatus_holiday. exact H.
Qed.

Lemma invalid_weekday_is_reported_by_queries_witness :
  Store.loadConfig (Store.initial (Store.mkFS (Some Sample.cfgMisspelt) None))
  = (Ok Sample.cfgMisspelt,
     Store.mkState (Store.mkFS (Some Sample.cfgMisspelt) None) (Some Sample.cfgMisspelt) None)
  /\ getCustodyStatus Sample.tzDenver Sample.cfgMisspelt (Sample.utah 2024 7 4) = Ok user.
Proof.
  split.
  - apply (proj1 (proj2 invalid_weekday_is_reported_by_queries)). reflexivity.
  - apply (proj2 (proj2 (proj2 (proj2 (proj2 invalid_weekday_is_reported_by_queries))))
             Sample.tzDenver Sample.cfgMisspelt (Sample.utah 2024 7 4) "July 4th").
    exists (JS.newDate Sample.tzDenver 2024 6 4). split; [|reflexivity].
    vm_compute. tauto.
Defined.

(** A misspelt weekend pickup day: the load succeeds, and the custody query
    for Tuesday 2024-01-09 then fails with the invalid-weekday error. *)
Lemma misspelt_day_passes_the_load :
  Store.loadConfig (Store.initial (Store.mkFS (Some Sample.cfgMisspelt) None))
  = (Ok Sample.cfgMisspelt,
     Store.mkState (Store.mkFS (Some Sample.cfgMisspelt) None) (Some Sample.cfgMisspelt) None)
  /\ fst (Store.getCustodyStatus Sample.tzDenver (Sample.utah 2024 1 9)
            (Store.mkState (Store.mkFS (Some Sample.cfgMisspelt) None)
                           (Some Sample.cfgMisspelt) None))
     = Throw (InvalidDayName "fryday").
Proof. split; reflexivity. Qed.

(* ================================================================== *)
(** * School calendar (C9) *)
(* ================================================================== *)

Lemma parseLocalDate_eq (tza : Z) (iso : JS.IsoDate) :
  parseLocalDate tza iso = isoDayNumber iso * JS.msPerDay - tza.
Proof. reflexivity. Qed.

Lemma midnight_leb (tza a b : Z) :
  (a * JS.msPerDay - tza <=? b * JS.msPerDay - tza) = (a <=? b).
Proof.
  unfold JS.msPerDay.
  destruct (Z.leb_spec a b); [apply Z.leb_le|apply Z.leb_gt]; lia.
Qed.

Lemma midnight_eqb (tza a b : Z) :
  (a * JS.msPerDay - tza =? b * JS.msPerDay - tza) = (a =? b).
Proof.
  unfold JS.msPerDay.
  destruct (Z.eqb_spec a b); [apply Z.eqb_eq|apply Z.eqb_neq]; lia.
Qed.

Lemma eventCovers_iff (tza : Z) (d : JS.Date) (e : CalendarEvent) :
  eventCovers tza (startOfDay tza d) e = true <-> covers tza e d.
Proof.
  unfold eventCovers, covers, JS.getTime.
  rewrite !parseLocalDate_eq, startOfDay_eq.
  destruct (ev_endDate e) as [iso|].
  - rewrite parseLocalDate_eq, Z.geb_leb, !midnight_leb, andb_true_iff, !Z.leb_le. lia.
  - rewrite midnight_eqb, Z.eqb_eq. lia.
Qed.

Lemma isWithinSchoolYear_eq (tza : Z) (d : JS.Date) (cal : SchoolCalendarConfig)
      (t0 : Term) (ts : list Term) :
  terms cal = t0 :: ts ->
  isWithinSchoolYear tza (startOfDay tza d) cal
  = Ok ((isoDayNumber (term_start t0) <=? JS.localDay tza d)
        && (JS.localDay tza d <=? isoDayNumber (term_end (last (terms cal) t0)))).
Proof.
  intros H. unfold isWithinSchoolYear. rewrite H, <- H.
  rewrite startOfDay_idem, !parseLocalDate_eq, startOfDay_eq, Z.geb_leb, !midnight_leb.
  reflexivity.
Qed.

Lemma find_filter_skip {A : Type} (p q m : A -> bool) (l : list A) :
  (forall x, p x = true -> m x = true) ->
  find p (filter q (filter m l)) = find p (filter q l).
Proof.
  intros H. induction l as [|x l IH]; [reflexivity|].
  cbn [filter]. destruct (m x) eqn:Em.
  - cbn [filter]. destruct (q x); [|exact IH].
    cbn [find]. destruct (p x); [reflexivity|exact IH].
  - destruct (q x); [|exact IH].
    cbn [find]. destruct (p x) eqn:Ep; [|exact IH].
    rewrite (H x Ep) in Em. discriminate Em.
Qed.

(** The resolution order of [getSchoolSchedule], with the term reported as
    [getCurrentTerm] finds it. *)
Lemma getSchoolSchedule_resolution (tza : Z) (cal : SchoolCalendarConfig)
        (now d : JS.Date) (t0 : Term) (ts : list Term) :
  terms cal = t0 :: ts ->
  let day := JS.localDay tza d in
  let w := JS.getDay tza d in
  let inSpan := isoDayNumber (term_start t0) <= day
                /\ day <= isoDayNumber (term_end (last (terms cal) t0)) in
  let weekend := w = 0 \/ w = 6 in
  let covering := fun k e => In e (events cal) /\ ev_type e = k /\ covers tza e d in
  exists info,
    getSchoolSchedule tza (Some cal) now (Some d) = Ok (Some info) /\
    sd_child info = Some (sc_child (school cal)) /\
    sd_schoolName info = Some (sc_shortName (school cal)) /\
    (~ inSpan -> sd_type info = not_in_session /\ sd_term info = None) /\
    (inSpan -> sd_term info = getCurrentTerm tza d cal) /\
    (inSpan -> weekend -> sd_type info = not_in_session) /\
    (inSpan -> ~ weekend -> (exists e, covering no_school e) ->
     sd_type info = session_no_school /\
     exists e, covering no_school e /\ sd_eventName info = Some (ev_name e)) /\
    (inSpan -> ~ weekend -> (forall e, ~ covering no_school e) ->
     (exists e, covering early_release e) ->
     sd_type info = session_early_release /\
     sd_startTime info = Some (earlyOutStart (schedule cal)) /\
     sd_endTime info = Some (earlyOutEnd (schedule cal)) /\
     exists e, covering early_release e /\ sd_eventName info = Some (ev_name e)) /\
    (inSpan -> ~ weekend -> (forall e, ~ covering no_school e) ->
     (forall e, ~ covering early_release e) ->
     In (nth (Z.to_nat w) DAYS "") (earlyOutDays (schedule cal)) ->
     sd_type info = session_early_release /\
     sd_startTime info = Some (earlyOutStart (schedule cal)) /\
     sd_endTime info = Some (earlyOutEnd (schedule cal)) /\
     sd_eventName info = Some "Weekly early release") /\
    (inSpan -> ~ weekend -> (forall e, ~ covering no_school e) ->
     (forall e, ~ covering early_release e) ->
     ~ In (nth (Z.to_nat w) DAYS "") (earlyOutDays (schedule cal)) ->
     sd_type info = regular /\
     sd_startTime info = Some (regularStart (schedule cal)) /\
     sd_endTime info = Some (regularEnd (schedule cal)) /\
     sd_eventName info = None) /\
    getSchoolSchedule tza
      (Some (mkSchoolCalendar (school cal) (schedule cal) (terms cal)
               (filter (fun e => negb (EventType_eqb (ev_type e) milestone)) (events cal))))
      now (Some d)
    = Ok (Some info).
Proof.
  intros Ht day w inSpan weekend covering.
  assert (Hfind : forall k,
            match find (fun e => EventType_eqb (ev_type e) k)
                       (getEventsForDate tza (startOfDay tza d) cal) with
            | Some e => covering k e
            | None => forall e, ~ covering k e
            end).
  { intros k. unfold getEventsForDate. rewrite startOfDay_idem.
    destruct (find _ _) as [e|] eqn:F.
    - apply find_some in F. destruct F as [F1 F2]. apply filter_In in F1.
      destruct F1 as [F1 F3]. apply eventCovers_iff in F3.
      split; [exact F1|]. split; [|exact F3].
      destruct (ev_type e), k; try discriminate F2; reflexivity.
    - intros e (H1 & H2 & H3).
      pose proof (find_none _ _ F e) as N. cbn beta in N.
      rewrite H2 in N. assert (In e (filter (eventCovers tza (startOfDay tza d)) (events cal)))
        by (apply filter_In; split; [exact H1|apply eventCovers_iff; exact H3]).
      specialize (N H). destruct k; discriminate N. }
  assert (Hmil : getSchoolSchedule tza
      (Some (mkSchoolCalendar (school cal) (schedule cal) (terms cal)
               (filter (fun e => negb (EventType_eqb (ev_type e) milestone)) (events cal))))
      now (Some d) = getSchoolSchedule tza (Some cal) now (Some d)).
  { unfold getSchoolSchedule, getEventsForDate, isWithinSchoolYear, getCurrentTerm.
    cbn [school schedule terms events].
    rewrite !(find_filter_skip _ _ (fun e => negb (EventType_eqb (ev_type e) milestone)));
      [reflexivity| |]; intros x Hx; destruct (ev_type x); try discriminate Hx; reflexivity. }
  rewrite Hmil.
  unfold getSchoolSchedule.
  rewrite (isWithinSchoolYear_eq tza d cal t0 ts Ht). cbn [bind].
  fold day. rewrite getDay_startOfDay. fold w.
  assert (Hterm : getCurrentTerm tza (startOfDay tza d) cal = getCurrentTerm tza d cal)
    by (unfold getCurrentTerm; rewrite startOfDay_idem; reflexivity).
  rewrite Hterm.
  destruct ((isoDayNumber (term_start t0) <=? day)
            && (day <=? isoDayNumber (term_end (last (terms cal) t0)))) eqn:S; cbn [negb].
  2:{ assert (~ inSpan).
      { intros [S1 S2]. apply andb_false_iff in S. rewrite !Z.leb_gt in S. lia. }
      eexists. split; [reflexivity|]. cbn [sd_type sd_startTime sd_endTime sd_eventName
                                             sd_term sd_child sd_schoolName].
      school_case. }
  assert (HS : inSpan) by (apply andb_true_iff in S; rewrite !Z.leb_le in S; exact S).
  destruct ((w =? 0) || (w =? 6)) eqn:W.
  { assert (weekend) by (apply orb_true_iff in W; rewrite !Z.eqb_eq in W; exact W).
    eexists. split; [reflexivity|]. cbn [sd_type sd_startTime sd_endTime sd_eventName
                                           sd_term sd_child sd_schoolName].
    school_case. }
  assert (HW : ~ weekend).
  { apply orb_false_iff in W. rewrite !Z.eqb_neq in W. unfold weekend. lia. }
  pose proof (Hfind no_school) as Fn. pose proof (Hfind early_release) as Fe.
  destruct (find (fun e => EventType_eqb (ev_type e) no_school) _) as [en|].
  { eexists. split; [reflexivity|]. cbn [sd_type sd_startTime sd_endTime sd_eventName
                                           sd_term sd_child sd_schoolName].
    school_case. }
  destruct (find (fun e => EventType_eqb (ev_type e) early_release) _) as [ee|].
  { eexists. split; [reflexivity|]. cbn [sd_type sd_startTime sd_endTime sd_eventName
                                           sd_term sd_child sd_schoolName].
    school_case. }
  destruct (includes (earlyOutDays (schedule cal)) (nth (Z.to_nat w) DAYS "")) eqn:I.
  - apply includes_In in I.
    eexists. split; [reflexivity|]. cbn [sd_type sd_startTime sd_endTime sd_eventName
                                           sd_term sd_child sd_schoolName].
    school_case.
  - apply includes_not_In in I.
    eexists. split; [reflexivity|]. cbn [sd_type sd_startTime sd_endTime sd_eventName
                                           sd_term sd_child sd_schoolName].
    school_case.
Qed.
(** The test of the loop of [getCurrentTerm], in day numbers. *)
Lemma term_test_iff (tza : Z) (d : JS.Date) (t : Term) :
  (startOfDay tza d >=? parseLocalDate tza (term_start t))
  && (startOfDay tza d <=? parseLocalDate tza (term_end t)) = true
  <-> inTerm tza t d.
Proof.
  unfold inTerm. rewrite !parseLocalDate_eq, startOfDay_eq, Z.geb_leb, !midnight_leb.
  rewrite andb_true_iff, !Z.leb_le. reflexivity.
Qed.

(** [getCurrentTerm] returns the name of the first term that contains the
    day. *)
Lemma getCurrentTerm_first (tza : Z) (d : JS.Date) (cal : SchoolCalendarConfig)
      (pre : list Term) (t : Term) (post : list Term) :
  terms cal = (pre ++ t :: post)%list ->
  inTerm tza t d ->
  (forall t', In t' pre -> ~ inTerm tza t' d) ->
  getCurrentTerm tza d cal = Some (term_name t).
Proof.
  intros E Ht Hpre. unfold getCurrentTerm. rewrite E. clear E.
  induction pre as [|x pre IH]; cbn [app currentTermIn].
  - rewrite (proj2 (term_test_iff tza d t) Ht). reflexivity.
  - destruct ((startOfDay tza d >=? parseLocalDate tza (term_start x))
              && (startOfDay tza d <=? parseLocalDate tza (term_end x))) eqn:T.
    + exfalso. apply (Hpre x (or_introl eq_refl)). apply term_test_iff. exact T.
    + apply IH. intros t' H. apply Hpre. right. exact H.
Qed.

(** [getCurrentTerm] returns nothing when no term contains the day. *)
Lemma getCurrentTerm_none (tza : Z) (d : JS.Date) (cal : SchoolCalendarConfig) :
  (forall t, In t (terms cal) -> ~ inTerm tza t d) ->
  getCurrentTerm tza d cal = None.
Proof.
  unfold getCurrentTerm. generalize (terms cal). intros ts.
  induction ts as [|x ts IH]; intros H; [reflexivity|].
  cbn [currentTermIn].
  destruct ((startOfDay tza d >=? parseLocalDate tza (term_start x))
            && (startOfDay tza d <=? parseLocalDate tza (term_end x))) eqn:T.
  - exfalso. apply (H x (or_introl eq_refl)). apply term_test_iff. exact T.
  - apply IH. intros t Ht. apply H. right. exact Ht.
Qed.

(** C9.  For a school calendar with at least one term, the session type of
    the calendar day of [d] is resolved in this order: outside the span from
    the first term's start to the last term's end, not in session; on a
    Saturday or Sunday, not in session, with the current term reported; a
    covering [no_school] event, no school, with the name of such an event; a
    covering [early_release] event, early release with the early-out times; a
    weekday of the weekly early-out days, early release labelled
    [Weekly early release]; otherwise a regular day with the regular times.
    Inside the span the term reported, on weekends as on every other day, is
    the name of the first configured term that contains the day, and none when
    no term contains it.  Milestone events have no effect on the result. *)
Theorem getSchoolSchedule_priority (tza : Z) (cal : SchoolCalendarConfig)
        (now d : JS.Date) (t0 : Term) (ts : list Term) :
  terms cal = t0 :: ts ->
  let day := JS.localDay tza d in
  let w := JS.getDay tza d in
  let inSpan := isoDayNumber (term_start t0) <= day
                /\ day <= isoDayNumber (term_end (last (terms cal) t0)) in
  let weekend := w = 0 \/ w = 6 in
  let covering := fun k e => In e (events cal) /\ ev_type e = k /\ covers tza e d in
  exists info,
    getSchoolSchedule tza (Some cal) now (Some d) = Ok (Some info) /\
    sd_child info = Some (sc_child (school cal)) /\
    sd_schoolName info = Some (sc_shortName (school cal)) /\
    (~ inSpan -> sd_type info = not_in_session /\ sd_term info = None) /\
    (inSpan -> sd_term info = getCurrentTerm tza d cal) /\
    (inSpan ->
     forall pre t post,
       terms cal = (pre ++ t :: post)%list ->
       inTerm tza t d -> (forall t', In t' pre -> ~ inTerm tza t' d) ->
       sd_term info = Some (term_name t)) /\
    (inSpan -> (forall t, In t (terms cal) -> ~ inTerm tza t d) ->
     sd_term info = None) /\
    (inSpan -> weekend -> sd_type info = not_in_session) /\
    (inSpan -> ~ weekend -> (exists e, covering no_school e) ->
     sd_type info = session_no_school /\
     exists e, covering no_school e /\ sd_eventName info = Some (ev_name e)) /\
    (inSpan -> ~ weekend -> (forall e, ~ covering no_school e) ->
     (exists e, covering early_release e) ->
     sd_type info = session_early_release /\
     sd_startTime info = Some (earlyOutStart (schedule cal)) /\
     sd_endTime info = Some (earlyOutEnd (schedule cal)) /\
     exists e, covering early_release e /\ sd_eventName info = Some (ev_name e)) /\
    (inSpan -> ~ weekend -> (forall e, ~ covering no_school e) ->
     (forall e, ~ covering early_release e) ->
     In (nth (Z.to_nat w) DAYS "") (earlyOutDays (schedule cal)) ->
     sd_type info = session_early_release /\
     sd_startTime info = Some (earlyOutStart (schedule cal)) /\
     sd_endTime info = Some (earlyOutEnd (schedule cal)) /\
     sd_eventName info = Some "Weekly early release") /\
    (inSpan -> ~ weekend -> (forall e, ~ covering no_school e) ->
     (forall e, ~ covering early_release e) ->
     ~ In (nth (Z.to_nat w) DAYS "") (earlyOutDays (schedule cal)) ->
     sd_type info = regular /\
     sd_startTime info = Some (regularStart (schedule cal)) /\
     sd_endTime info = Some (regularEnd (schedule cal)) /\
     sd_eventName info = None) /\
    getSchoolSchedule tza
      (Some (mkSchoolCalendar (school cal) (schedule cal) (terms cal)
               (filter (fun e => negb (EventType_eqb (ev_type e) milestone)) (events cal))))
      now (Some d)
    = Ok (Some info).
Proof.
  intros Ht day w inSpan weekend covering.
  destruct (getSchoolSchedule_resolution tza cal now d t0 ts Ht)
    as (info & H1 & H2 & H3 & H4 & H5 & H6).
  exists info.
  split; [exact H1|]. split; [exact H2|]. split; [exact H3|].
  split; [exact H4|]. split; [exact H5|].
  split; [|split; [|exact H6]].
  - intros S pre t post E Hin Hpre. rewrite (H5 S).
    apply (getCurrentTerm_first tza d cal pre t post E Hin Hpre).
  - intros S Hnone. rewrite (H5 S). apply getCurrentTerm_none. exact Hnone.
Qed.

Lemma getSchoolSchedule_priority_witness :
  exists info,
    getSchoolSchedule Sample.tzDenver (Some Sample.school) 0 (Some (Sample.utah 2024 9 2))
    = Ok (Some info) /\
    sd_child info = Some "Sam" /\ sd_schoolName info = Some "Sample Elementary" /\
    sd_term info = Some "Fall".
Proof.
  destruct (getSchoolSchedule_priority Sample.tzDenver Sample.school 0
              (Sample.utah 2024 9 2) _ _ eq_refl)
    as (info & H1 & H2 & H3 & _ & _ & H6 & _).
  exists info. split; [exact H1|]. split; [exact H2|]. split; [exact H3|].
  apply (H6 ltac:(vm_compute; split; discriminate) []
            (mkTerm "Fall" (JS.mkIso 2024 8 20) (JS.mkIso 2024 12 20))
            [mkTerm "Spring" (JS.mkIso 2025 1 6) (JS.mkIso 2025 5 30)]).
  - reflexivity.
  - vm_compute. split; discriminate.
  - intros t' [].
Defined.

(** The overlay on six days of the sample calendar: Labor Day, a day of the
    parent conferences, a Friday, a Tuesday on which a milestone falls, a
    Saturday, and a day of the summer break. *)
Example getSchoolSchedule_samples :
  map (fun d => match getSchoolSchedule Sample.tzDenver (Some Sample.school) 0 (Some d) with
                | Ok (Some info) => Some (sd_type info, sd_eventName info, sd_term info)
                | _ => None
                end)
      [Sample.utah 2024 9 2; Sample.utah 2024 10 10; Sample.utah 2024 9 6;
       Sample.utah 2024 9 10; Sample.utah 2024 9 7; Sample.utah 2024 7 1]
  = [Some (session_no_school, Some "Labor Day", Some "Fall");
     Some (session_early_release, Some "Parent conferences", Some "Fall");
     Some (session_early_release, Some "Weekly early release", Some "Fall");
     Some (regular, None, Some "Fall");
     Some (not_in_session, None, Some "Fall");
     Some (not_in_session, None, None)].
Proof. vm_compute. reflexivity. Qed.
